(** * medical-shop: the order-notification endpoint [api/send-email.js]

    A shallow embedding of the serverless handler that renders an order as an
    HTML e-mail and hands it to an SMTP client, together with the properties
    its specification states about it.

    Layout:
    - [Numbers]: the numbers of the JavaScript runtime, as an interface, and
      [Exact], a small implementation used to run the program on samples;
    - [JS]: the fragment of the JavaScript value model the handler relies on
      (JSON values, truthiness, [||], property reads, [String()], [Number()]);
    - [escapeHtml], [buildHtml]: the renderer;
    - [Effects]: a small trace-and-exception monad for the handler's
      observable actions (response, logs, stream read, SMTP calls);
    - [handler], [getRawBody] and the module-level configuration;
    - the theorems, for every implementation of [Numbers];
    - their instances on sample inputs.

    Numbers.  A JavaScript number is an IEEE-754 double; [+], [*], [===],
    [String()] and [Number()] on numbers belong to the runtime, not to this
    program.  They are the parameters of the development, with the few facts
    about them that the proofs use: arithmetic is exact on the integers up
    to 2^53, [NaN] absorbs addition, an integer prints in decimal, a printed
    number holds none of the five characters that [escapeHtml] replaces.
    The theorems hold for whatever the runtime computes, roundings,
    fractions and infinities included.

    Strings.  A JavaScript string is modelled by its UTF-8 bytes.  The only
    character-level operation of the program, the replacement of the five
    ASCII characters in [escapeHtml], acts the same on both representations. *)

From Stdlib Require Import ZArith List String Ascii Bool Lia.
From Stdlib Require Import Numbers.DecimalString.
Import ListNotations.
Open Scope string_scope.

(** ** Characters of a text *)

(** [keep f s]: the characters of [s] that satisfy [f], in order. *)
Fixpoint keep (f : ascii -> bool) (s : string) : string :=
  match s with
  | EmptyString => EmptyString
  | String c s' => if f c then String c (keep f s') else keep f s'
  end.

(** The four characters that open or close markup and attribute values. *)
Definition markup (c : ascii) : bool :=
  Ascii.eqb c "<" || Ascii.eqb c ">" || Ascii.eqb c (ascii_of_nat 34) || Ascii.eqb c "'".

(** The five characters that [escapeHtml] replaces. *)
Definition special (c : ascii) : bool := Ascii.eqb c "&" || markup c.

(** ** Numbers of the runtime *)

(** The integers up to 2^53 in magnitude: a double holds each of them
    exactly. *)
Definition safe (z : Z) : Prop := (Z.abs z <= 2 ^ 53)%Z.

(** The decimal writing of an integer. *)
Definition decimal (z : Z) : string := NilZero.string_of_int (Z.to_int z).

(** The numbers of the runtime and the operations the program applies to
    them.  [Int z] is the number that the literal [z] denotes; [nadd],
    [nmul] and [nstrict_eq] are [+], [*] and [===] on numbers;
    [number_truthy] is the truth value of a number; [number_to_string] is
    [String(n)]; [string_to_number] is [Number(s)] on a string.  The laws
    are facts of IEEE-754 arithmetic and of the language's conversion of
    numbers to strings. *)
Class Numbers : Type := {
  number : Type;
  NaN : number;
  Int : Z -> number;
  nadd : number -> number -> number;
  nmul : number -> number -> number;
  nstrict_eq : number -> number -> bool;
  number_truthy : number -> bool;
  number_to_string : number -> string;
  string_to_number : string -> number;
  nadd_exact : forall a b,
    safe a -> safe b -> safe (a + b) -> nadd (Int a) (Int b) = Int (a + b);
  nmul_exact : forall a b,
    safe a -> safe b -> safe (a * b) -> nmul (Int a) (Int b) = Int (a * b);
  nadd_NaN_l : forall n, nadd NaN n = NaN;
  nadd_NaN_r : forall n, nadd n NaN = NaN;
  nstrict_eq_Int : forall n z,
    safe z -> z <> 0%Z -> (nstrict_eq n (Int z) = true <-> n = Int z);
  number_truthy_Int : forall z, number_truthy (Int z) = negb (Z.eqb z 0);
  number_truthy_NaN : number_truthy NaN = false;
  number_to_string_Int : forall z, safe z -> number_to_string (Int z) = decimal z;
  number_to_string_NaN : number_to_string NaN = "NaN";
  number_to_string_plain : forall n, keep special (number_to_string n) = ""
}.

(** *** An implementation: the integers and [NaN]

    Exact arithmetic on integers, with [NaN] for what is not a number.  It
    agrees with the runtime on the integers up to 2^53 and on texts that are
    not numeric, and serves to run the program on sample inputs, all of which
    stay within these.  Beyond 2^53 and on numeric texts that are not integer
    literals (fractions, exponents, hexadecimal, [Infinity]) it is not the
    runtime's arithmetic; no theorem is stated about it. *)

Module Exact.

Inductive number : Type :=
| NaN
| Int (z : Z).

Definition nadd (a b : number) : number :=
  match a, b with
  | Int x, Int y => Int (x + y)
  | _, _ => NaN
  end.

Definition nmul (a b : number) : number :=
  match a, b with
  | Int x, Int y => Int (x * y)
  | _, _ => NaN
  end.

(** [a === b] on numbers: [NaN] equals nothing, itself included. *)
Definition nstrict_eq (a b : number) : bool :=
  match a, b with
  | Int x, Int y => Z.eqb x y
  | _, _ => false
  end.

Definition number_truthy (n : number) : bool :=
  match n with
  | NaN => false
  | Int z => negb (Z.eqb z 0)
  end.

Definition number_to_string (n : number) : string :=
  match n with
  | NaN => "NaN"
  | Int z => decimal z
  end.

(** [Number(s)] on the texts this implementation reads: surrounding white
    space is ignored, the empty text is 0, an optionally signed run of
    decimal digits is that integer, anything else is [NaN]. *)
Definition is_space (c : ascii) : bool :=
  let n := nat_of_ascii c in
  ((9 <=? n) && (n <=? 13))%nat || (n =? 32)%nat.

Fixpoint trim_start (s : string) : string :=
  match s with
  | String c s' => if is_space c then trim_start s' else s
  | EmptyString => EmptyString
  end.

Fixpoint trim_end (s : string) : string :=
  match s with
  | EmptyString => EmptyString
  | String c s' =>
      match trim_end s' with
      | EmptyString => if is_space c then EmptyString else String c EmptyString
      | t => String c t
      end
  end.

Definition digit_of (c : ascii) : option Z :=
  let n := nat_of_ascii c in
  if ((48 <=? n) && (n <=? 57))%nat then Some (Z.of_nat (n - 48)) else None.

Fixpoint digits_value (acc : Z) (s : string) : option Z :=
  match s with
  | EmptyString => Some acc
  | String c s' =>
      match digit_of c with
      | Some d => digits_value (10 * acc + d) s'
      | None => None
      end
  end.

Definition unsigned_literal (s : string) : number :=
  match s with
  | EmptyString => NaN
  | _ => match digits_value 0 s with Some z => Int z | None => NaN end
  end.

Definition string_to_number (s : string) : number :=
  match trim_end (trim_start s) with
  | EmptyString => Int 0
  | String "+" t => unsigned_literal t
  | String "-" t => nmul (Int (-1)) (unsigned_literal t)
  | t => unsigned_literal t
  end.

Lemma nadd_NaN_r (n : number) : nadd n NaN = NaN.
Proof. destruct n; reflexivity. Qed.

Lemma nstrict_eq_Int (n : number) (z : Z) : nstrict_eq n (Int z) = true <-> n = Int z.
Proof.
  destruct n as [| x]; cbn [nstrict_eq].
  - split; discriminate.
  - rewrite Z.eqb_eq. split; [intros ->; reflexivity | congruence].
Qed.

Lemma uint_plain d : keep special (NilEmpty.string_of_uint d) = "".
Proof. induction d; simpl; auto. Qed.

Lemma number_to_string_plain (n : number) : keep special (number_to_string n) = "".
Proof.
  destruct n as [| z]; [reflexivity |].
  unfold number_to_string, decimal, NilZero.string_of_int, NilZero.string_of_uint.
  destruct (Z.to_int z) as [d | d]; destruct d; try reflexivity;
    simpl; apply uint_plain.
Qed.

End Exact.

Definition exact_numbers : Numbers := {|
  number := Exact.number;
  NaN := Exact.NaN;
  Int := Exact.Int;
  nadd := Exact.nadd;
  nmul := Exact.nmul;
  nstrict_eq := Exact.nstrict_eq;
  number_truthy := Exact.number_truthy;
  number_to_string := Exact.number_to_string;
  string_to_number := Exact.string_to_number;
  nadd_exact := fun a b _ _ _ => eq_refl;
  nmul_exact := fun a b _ _ _ => eq_refl;
  nadd_NaN_l := fun n => eq_refl;
  nadd_NaN_r := Exact.nadd_NaN_r;
  nstrict_eq_Int := fun n z _ _ => Exact.nstrict_eq_Int n z;
  number_truthy_Int := fun z => eq_refl;
  number_truthy_NaN := eq_refl;
  number_to_string_Int := fun z _ => eq_refl;
  number_to_string_NaN := eq_refl;
  number_to_string_plain := Exact.number_to_string_plain
|}.

(** ** The JavaScript fragment *)

Module JS.

#[local] Set Warnings "-register-all".

(** Thrown [Error] objects: constructor name and [message]. *)
Record error : Type := mkError { err_name : string; err_message : string }.

Inductive result (A : Type) : Type :=
| Ok (a : A)
| Throw (e : error).
Arguments Ok {A} a.
Arguments Throw {A} e.

Definition bind {A B} (r : result A) (k : A -> result B) : result B :=
  match r with
  | Ok a => k a
  | Throw e => Throw e
  end.

Declare Scope js_scope.
Delimit Scope js_scope with js.
Notation "'let*' x ':=' r 'in' k" := (bind r (fun x => k))
  (at level 10, x name, r at level 100, k at level 200) : js_scope.
Open Scope js_scope.

Definition TypeError (msg : string) : error := mkError "TypeError" msg.
Definition SyntaxError (msg : string) : error := mkError "SyntaxError" msg.

Section Values.
Context {N : Numbers}.

(** Values that [JSON.parse] (or the framework's body parser) can produce,
    plus [undefined], the result of reading an absent property. *)
Inductive value : Type :=
| VUndefined
| VNull
| VBool (b : bool)
| VNum (n : number)
| VStr (s : string)
| VArr (xs : list value)
| VObj (props : list (string * value)).

(** *** Truthiness and [||] *)

Definition truthy (v : value) : bool :=
  match v with
  | VUndefined | VNull => false
  | VBool b => b
  | VNum n => number_truthy n
  | VStr s => negb (String.eqb s "")
  | VArr _ | VObj _ => true
  end.

Definition or_else (a b : value) : value := if truthy a then a else b.

(** [a && b]. *)
Definition and_then (a b : value) : value := if truthy a then b else a.

(** *** Property reads

    [v.k] for the keys this program reads ([orderMeta], [items], [title],
    [qty], [price], [order_number], [order_name], [phone],
    [shipping_address], [id]).  None of them exists on a built-in
    prototype, so only own properties of plain objects are found; a
    primitive or an array yields [undefined]; [null] and [undefined] throw. *)

Fixpoint lookup (k : string) (props : list (string * value)) : option value :=
  match props with
  | [] => None
  | (k', v) :: rest => if String.eqb k k' then Some v else lookup k rest
  end.

Definition has_own (k : string) (props : list (string * value)) : bool :=
  match lookup k props with Some _ => true | None => false end.

Definition get (v : value) (k : string) : result value :=
  match v with
  | VUndefined =>
      Throw (TypeError ("Cannot read properties of undefined (reading '" ++ k ++ "')"))
  | VNull =>
      Throw (TypeError ("Cannot read properties of null (reading '" ++ k ++ "')"))
  | VObj props =>
      Ok (match lookup k props with Some x => x | None => VUndefined end)
  | _ => Ok VUndefined
  end.

(** *** [String(v)]

    An array prints as its elements joined by commas, [null] and
    [undefined] elements printing as nothing.  A plain object prints as
    [[object Object]] through [Object.prototype.toString]; an own property
    named [toString] shadows that method, and since a JSON value is never
    callable the conversion then fails. *)

Definition cannot_convert : error :=
  TypeError "Cannot convert object to primitive value".

Fixpoint to_string (v : value) : result string :=
  match v with
  | VUndefined => Ok "undefined"
  | VNull => Ok "null"
  | VBool true => Ok "true"
  | VBool false => Ok "false"
  | VNum n => Ok (number_to_string n)
  | VStr s => Ok s
  | VArr xs =>
      let element (x : value) : result string :=
        match x with
        | VUndefined | VNull => Ok ""
        | _ => to_string x
        end in
      (fix join (l : list value) : result string :=
         match l with
         | [] => Ok ""
         | [x] => element x
         | x :: rest =>
             let* s := element x in
             let* t := join rest in
             Ok (s ++ "," ++ t)
         end) xs
  | VObj props =>
      if has_own "toString" props then Throw cannot_convert
      else Ok "[object Object]"
  end.

(** *** [Number(v)]

    Objects and arrays go through ToPrimitive with hint number:
    [valueOf] returns the object itself, so the result is that of
    [toString], converted as a string. *)
Definition to_number (v : value) : result number :=
  match v with
  | VUndefined => Ok NaN
  | VNull => Ok (Int 0)
  | VBool true => Ok (Int 1)
  | VBool false => Ok (Int 0)
  | VNum n => Ok n
  | VStr s => Ok (string_to_number s)
  | VArr _ | VObj _ =>
      let* s := to_string v in Ok (string_to_number s)
  end.

(** [Object.keys(v).length] for a value that is neither [null] nor
    [undefined]: the own enumerable string keys. *)
Definition keys_length (v : value) : nat :=
  match v with
  | VObj props => List.length props
  | VArr xs => List.length xs
  | VStr s => String.length s
  | _ => 0
  end.

End Values.

End JS.
Import JS.

(** ** The renderer *)

Section Renderer.
Context {N : Numbers}.

Definition dquote : string := String (ascii_of_nat 34) EmptyString.
Definition newline : string := String (ascii_of_nat 10) EmptyString.

(** An attribute [name="text"] of the template. *)
Definition attr (name text : string) : string :=
  name ++ "=" ++ dquote ++ text ++ dquote.

(** The replacement callback of [escapeHtml]: the object literal indexed by
    the matched character. *)
Definition escape_char (c : ascii) : string :=
  if Ascii.eqb c "&" then "&amp;"
  else if Ascii.eqb c "<" then "&lt;"
  else if Ascii.eqb c ">" then "&gt;"
  else if Ascii.eqb c (ascii_of_nat 34) then "&quot;"
  else if Ascii.eqb c "'" then "&#39;"
  else String c EmptyString.

(** The global [replace] over the five-character class: every match is
    replaced, every other character is kept. *)
Fixpoint replace_special (s : string) : string :=
  match s with
  | EmptyString => EmptyString
  | String c s' => escape_char c ++ replace_special s'
  end.

(** [function escapeHtml(s='')]: the default applies to [undefined] only. *)
Definition escapeHtml (s : value) : result string :=
  let s := match s with VUndefined => VStr "" | _ => s end in
  let* str := to_string s in
  Ok (replace_special str).

(** The receiver of [.map] and [.reduce]: only an array has these methods
    (a JSON object cannot hold a function under those keys). *)
Definition array_method (receiver : value) (method : string) : result (list value) :=
  match receiver with
  | VArr xs => Ok xs
  | _ => Throw (TypeError ("(items || [])." ++ method ++ " is not a function"))
  end.

(** [Array.prototype.map] with a callback that may throw. *)
Fixpoint array_map {B} (f : value -> result B) (xs : list value) : result (list B) :=
  match xs with
  | [] => Ok []
  | x :: rest =>
      let* y := f x in
      let* ys := array_map f rest in
      Ok (y :: ys)
  end.

(** [Array.prototype.reduce] with an initial value. *)
Fixpoint array_reduce {A} (f : A -> value -> result A) (init : A) (xs : list value)
  : result A :=
  match xs with
  | [] => Ok init
  | x :: rest =>
      let* acc := f init x in
      array_reduce f acc rest
  end.

(** [strings.join('')]. *)
Definition join_empty (l : list string) : string := String.concat "" l.

Definition cell_style : string := "padding:6px 8px;border-bottom:1px solid #eee".

(** The template literal of a table row. *)
Definition row_template (title qty price : string) : string :=
  "<tr><td " ++ attr "style" cell_style ++ ">" ++ title
  ++ "</td><td " ++ attr "style" (cell_style ++ ";text-align:center") ++ ">" ++ qty
  ++ "</td><td " ++ attr "style" (cell_style ++ ";text-align:right") ++ ">" ++ price
  ++ "</td></tr>".

(** The callback of [items.map]. *)
Definition render_row (it : value) : result string :=
  let* t := get it "title" in
  let* title := escapeHtml (or_else t (VStr "")) in
  let* q := get it "qty" in
  let* qs := to_string (or_else q (VNum (Int 1))) in
  let* qty := escapeHtml (VStr qs) in
  let* p := get it "price" in
  let* ps := to_string (or_else p (VStr "")) in
  let* pe := escapeHtml (VStr ps) in
  let price := pe ++ " XOF" in
  Ok (row_template title qty price).

(** The callback of [items.reduce]; the accumulator starts as the number 0
    and only ever receives numbers, so [+] is numeric addition. *)
Definition add_line (s : number) (i : value) : result number :=
  let* p := get i "price" in
  let* pn := to_number (or_else p (VNum (Int 0))) in
  let* q := get i "qty" in
  let* qn := to_number (or_else q (VNum (Int 1))) in
  Ok (nadd s (nmul pn qn)).

Definition compute_total (items : value) : result number :=
  let* xs := array_method (or_else items (VArr [])) "reduce" in
  array_reduce add_line (Int 0) xs.

Definition total_row (total : string) : string :=
  "<tr><td " ++ attr "colspan" "2" ++ " " ++ attr "style" "padding:8px;text-align:right"
  ++ "><strong>Total</strong></td><td " ++ attr "style" "padding:8px;text-align:right"
  ++ "><strong>" ++ total ++ " XOF</strong></td></tr>".

Definition header_cells : string :=
  "<tr><th " ++ attr "style" "text-align:left;padding:6px 8px;border-bottom:2px solid #ccc"
  ++ ">Article</th><th " ++ attr "style" "padding:6px 8px;border-bottom:2px solid #ccc"
  ++ ">Qté</th><th " ++ attr "style" "padding:6px 8px;border-bottom:2px solid #ccc;text-align:right"
  ++ ">Prix</th></tr>".

(** The template literal returned by [buildHtml], line by line. *)
Definition document (order_number order_name phone shipping_address rows total id : string)
  : string :=
  newline
  ++ "    <div " ++ attr "style" "font-family:Arial,Helvetica,sans-serif;color:#0b2a3a" ++ ">" ++ newline
  ++ "      <h2>Nouvelle commande " ++ order_number ++ "</h2>" ++ newline
  ++ "      <p><strong>Client :</strong> " ++ order_name ++ "</p>" ++ newline
  ++ "      <p><strong>Tél :</strong> " ++ phone
  ++ " — <strong>Adresse :</strong> " ++ shipping_address ++ "</p>" ++ newline
  ++ "      <table " ++ attr "style" "width:100%;border-collapse:collapse;margin-top:12px" ++ ">" ++ newline
  ++ "        <thead>" ++ newline
  ++ "          " ++ header_cells ++ newline
  ++ "        </thead>" ++ newline
  ++ "        <tbody>" ++ newline
  ++ "          " ++ rows ++ newline
  ++ "          " ++ total_row total ++ newline
  ++ "        </tbody>" ++ newline
  ++ "      </table>" ++ newline
  ++ "      <p " ++ attr "style" "margin-top:14px;color:#6b7b8f" ++ ">ID commande interne: " ++ id ++ "</p>" ++ newline
  ++ "    </div>" ++ newline
  ++ "  ".

Definition buildHtml (orderMeta items : value) : result string :=
  let* xs := array_method (or_else items (VArr [])) "map" in
  let* rendered := array_map render_row xs in
  let rows := join_empty rendered in
  let* total := compute_total items in
  let* v1 := get orderMeta "order_number" in
  let* order_number := escapeHtml (or_else v1 (VStr "")) in
  let* v2 := get orderMeta "order_name" in
  let* order_name := escapeHtml (or_else v2 (VStr "")) in
  let* v3 := get orderMeta "phone" in
  let* phone := escapeHtml (or_else v3 (VStr "")) in
  let* v4 := get orderMeta "shipping_address" in
  let* shipping_address := escapeHtml (or_else v4 (VStr "")) in
  let* ts := to_string (VNum total) in
  let* total_cell := escapeHtml (VStr ts) in
  let* v5 := get orderMeta "id" in
  let* ids := to_string (or_else v5 (VStr "")) in
  let* id := escapeHtml (VStr ids) in
  Ok (document order_number order_name phone shipping_address rows total_cell id).

End Renderer.

(** ** Observable actions of the handler *)

Module Effects.

Section Events.
Context {N : Numbers}.

Record TransportOptions : Type := mkTransport {
  opt_host : value;
  opt_port : number;
  opt_secure : bool;
  opt_auth_user : value;
  opt_auth_pass : value
}.

Record MailOptions : Type := mkMail {
  mail_from : string;
  mail_to : value;
  mail_subject : string;
  mail_html : string
}.

(** The fields of nodemailer's send report that the handler reads. *)
Record SendInfo : Type := mkInfo {
  messageId : string;
  accepted : list string
}.

(** Everything the handler does that can be seen from outside, in order. *)
Inductive event : Type :=
| SetHeader (name val : string)
| Respond (status : nat) (json : value)
| ConsoleError (text : string) (err : option error)
| ConsoleWarn (text detail : string)
| ReadStream
| CreateTransport (opts : TransportOptions)
| Verify (opts : TransportOptions)
| SendMail (opts : TransportOptions) (mail : MailOptions).

(** A computation yields the events it performed and either a value or the
    exception that interrupted it. *)
Definition M (A : Type) : Type := (list event * result A)%type.

Definition ret {A} (a : A) : M A := ([], Ok a).

Definition mbind {A B} (m : M A) (k : A -> M B) : M B :=
  match m with
  | (t, Ok a) => let (t', r) := k a in ((t ++ t')%list, r)
  | (t, Throw e) => (t, Throw e)
  end.

Definition emit (e : event) : M unit := ([e], Ok tt).

Definition lift {A} (r : result A) : M A := ([], r).

(** [try { m } catch (err) { h err }]. *)
Definition try_catch {A} (m : M A) (h : error -> M A) : M A :=
  match m with
  | (t, Ok a) => (t, Ok a)
  | (t, Throw e) => let (t', r) := h e in ((t ++ t')%list, r)
  end.

Definition trace {A} (m : M A) : list event := fst m.

End Events.

Declare Scope eff_scope.
Delimit Scope eff_scope with eff.
Notation "x <- m ;; k" := (mbind m (fun x => k))
  (at level 61, m at next level, right associativity) : eff_scope.
Notation "m ;; k" := (mbind m (fun _ => k))
  (at level 61, right associativity) : eff_scope.

End Effects.
Import Effects.
Open Scope eff_scope.

Section Handler.
Context {N : Numbers}.

(** ** Environment of one invocation *)

(** [process.env]: each variable is a string or unset. *)
Record Env : Type := mkEnv {
  SMTP_HOST : option string;
  SMTP_PORT : option string;
  SMTP_USER : option string;
  SMTP_PASS : option string;
  EMAIL_TO : option string
}.

Definition env_value (o : option string) : value :=
  match o with
  | Some s => VStr s
  | None => VUndefined
  end.

(** The runtime and the SMTP relay, as far as the handler depends on them. *)
Record World : Type := mkWorld {
  json_parse : string -> result value;
  smtp_verify : TransportOptions -> result unit;
  smtp_send : TransportOptions -> MailOptions -> result SendInfo
}.

(** The request stream as its listeners see it: for each [data] event the
    text that [data += chunk] appends (a buffer chunk is converted to text on
    its own), then either [end] or [error].  A stream that emits neither is
    not represented: every [await] of the handler is taken to settle. *)
Record Stream : Type := mkStream {
  chunks : list string;
  failure : option error
}.

Record Request : Type := mkRequest {
  method : string;
  body : value;
  stream : Stream
}.

(** ** Module-level configuration *)

Definition host (env : Env) : value :=
  or_else (env_value (SMTP_HOST env)) (VStr "smtp.gmail.com").

Definition port (env : Env) : number :=
  if truthy (env_value (SMTP_PORT env))
  then match SMTP_PORT env with
       | Some s => string_to_number s
       | None => NaN
       end
  else Int 587.

Definition user (env : Env) : value := env_value (SMTP_USER env).

Definition pass (env : Env) : value := env_value (SMTP_PASS env).

Definition destination (env : Env) : value :=
  or_else (env_value (EMAIL_TO env)) (env_value (SMTP_USER env)).

(** ** The handler *)

(** [getRawBody]: appends the text of each chunk in arrival order and
    resolves with the whole on [end], rejects on [error]. *)
Definition getRawBody (req : Request) : M string :=
  emit ReadStream ;;
  match failure (stream req) with
  | None => ret (String.concat "" (chunks (stream req)))
  | Some err => lift (Throw err)
  end.

Definition respond (status : nat) (json : value) : M unit :=
  emit (Respond status json).

Definition transport_options (env : Env) : TransportOptions :=
  mkTransport (host env) (port env) (nstrict_eq (port env) (Int 465))
              (user env) (pass env).

(** [orderMeta?.order_number]. *)
Definition optional_get (v : value) (k : string) : result value :=
  match v with
  | VUndefined | VNull => Ok VUndefined
  | _ => get v k
  end.

(** The initialiser of [body]: the framework's parsed body when it is truthy
    and has at least one key, otherwise the raw stream parsed as JSON. *)
Definition read_body (w : World) (req : Request) : M value :=
  if truthy (and_then (body req)
                      (VNum (Int (Z.of_nat (keys_length (body req))))))
  then ret (body req)
  else raw <- getRawBody req ;; lift (json_parse w raw).

(** The JSON payloads of the two outcomes of the [try] block. *)
Definition success_body (info : SendInfo) : value :=
  VObj [("ok", VBool true);
        ("messageId", VStr (messageId info));
        ("accepted", VArr (map VStr (accepted info)))].

Definition error_body (err : error) : value :=
  VObj [("error", or_else (VStr (err_message err)) (VStr "send failed"))].

(** The body of the [try] block.  The destructuring of [body] reads its two
    properties; on [null] and [undefined] it throws a [TypeError] like a
    property read does (the engine words the message differently). *)
Definition send_order (env : Env) (w : World) (req : Request) : M unit :=
  body <- read_body w req ;;
  orderMeta <- lift (get body "orderMeta") ;;
  items <- lift (get body "items") ;;
  let transporter := transport_options env in
  emit (CreateTransport transporter) ;;
  try_catch
    (emit (Verify transporter) ;; lift (smtp_verify w transporter))
    (fun verifyErr =>
       emit (ConsoleWarn "SMTP verify warning:" (err_message verifyErr))) ;;
  html <- lift (buildHtml (or_else orderMeta (VObj [])) (or_else items (VArr []))) ;;
  number <- lift (optional_get orderMeta "order_number") ;;
  shown <- lift (to_string (or_else number (VStr ""))) ;;
  let subject := "Nouvelle commande " ++ shown in
  sender <- lift (to_string (user env)) ;;
  let mailOptions :=
    mkMail (dquote ++ "Medical Shop" ++ dquote ++ " <" ++ sender ++ ">")
           (destination env) subject html in
  emit (SendMail transporter mailOptions) ;;
  info <- lift (smtp_send w transporter mailOptions) ;;
  respond 200 (success_body info).

Definition handler (env : Env) (w : World) (req : Request) : M unit :=
  if negb (String.eqb (method req) "POST") then
    emit (SetHeader "Allow" "POST") ;;
    respond 405 (VObj [("error", VStr "Method not allowed")])
  else if negb (truthy (user env)) || negb (truthy (pass env)) then
    emit (ConsoleError "SMTP credentials not configured (SMTP_USER/SMTP_PASS)" None) ;;
    respond 500 (VObj [("error", VStr "SMTP credentials not configured")])
  else
    try_catch (send_order env w req)
      (fun err =>
         emit (ConsoleError "api/send-email error" (Some err)) ;;
         respond 500 (error_body err)).

(** ** Vocabulary of the statements *)

(** [occurs p s]: the text [p] is a substring of [s]. *)
Fixpoint occurs (p s : string) : bool :=
  match s with
  | EmptyString => String.prefix p EmptyString
  | String _ s' => String.prefix p s || occurs p s'
  end.

(** What may follow an ampersand: the tail of one of the five entities. *)
Definition entity_tail (s : string) : bool :=
  String.prefix "amp;" s || String.prefix "lt;" s || String.prefix "gt;" s
  || String.prefix "quot;" s || String.prefix "#39;" s.

(** Every ampersand of [s] starts an entity. *)
Fixpoint ampersands_escaped (s : string) : bool :=
  match s with
  | EmptyString => true
  | String c s' =>
      (if Ascii.eqb c "&" then entity_tail s' else true) && ampersands_escaped s'
  end.

(** [mismatch p s]: [s] differs from [p] at a position both have, so no
    extension of [s] starts with [p]. *)
Fixpoint mismatch (p s : string) : bool :=
  match p, s with
  | String a p', String b s' => if Ascii.eqb a b then mismatch p' s' else true
  | _, _ => false
  end.

(** [closed p s]: no occurrence of [p] starts inside [s], whatever follows. *)
Fixpoint closed (p s : string) : bool :=
  match s with
  | EmptyString => true
  | String _ s' => mismatch p s && closed p s'
  end.

(** The document with every field blank and [n] blank rows. *)
Definition blank_document (n : nat) : string :=
  document "" "" "" "" (join_empty (repeat (row_template "" "" " XOF") n)) "" "".


(** The responses of a run, in order. *)
Fixpoint responses (t : list event) : list (nat * value) :=
  match t with
  | [] => []
  | Respond status json :: rest => (status, json) :: responses rest
  | _ :: rest => responses rest
  end.

(** A run with the verification warnings left out. *)
Fixpoint without_warnings (t : list event) : list event :=
  match t with
  | [] => []
  | ConsoleWarn _ _ :: rest => without_warnings rest
  | e :: rest => e :: without_warnings rest
  end.

(** Events that reach the network: creating the transport, verifying the
    connection, sending. *)
Definition is_network (e : event) : bool :=
  match e with
  | CreateTransport _ | Verify _ | SendMail _ _ => true
  | _ => false
  end.

(** The same world with a relay whose verification succeeds. *)
Definition with_verify_ok (w : World) : World :=
  mkWorld (json_parse w) (fun _ => Ok tt) (smtp_send w).

(** *** Line items *)

(** A line item as the data model has it: a title, and a quantity and a unit
    price that may be absent. *)
Record LineItem : Type := mkLine {
  line_title : string;
  line_qty : option Z;
  line_price : option Z
}.

(** Its JSON form: an object holding the fields that are present. *)
Definition encode (li : LineItem) : value :=
  VObj ([("title", VStr (line_title li))]
        ++ match line_qty li with Some q => [("qty", VNum (Int q))] | None => [] end
        ++ match line_price li with Some p => [("price", VNum (Int p))] | None => [] end).

(** What the line adds to the total: an absent price counts as 0, an absent
    or zero quantity counts as 1. *)
Definition line_value (li : LineItem) : Z :=
  match line_price li with Some p => p | None => 0 end
  * match line_qty li with
    | Some q => if Z.eqb q 0 then 1 else q
    | None => 1
    end.

Definition sum_Z (l : list Z) : Z := fold_right Z.add 0%Z l.

(** The amount of an arbitrary entry: [Number(price || 0) * Number(qty || 1)]. *)
Definition line_amount (it : value) : result number :=
  let* p := get it "price" in
  let* pn := to_number (or_else p (VNum (Int 0))) in
  let* q := get it "qty" in
  let* qn := to_number (or_else q (VNum (Int 1))) in
  Ok (nmul pn qn).

(** The row as the data model words it: the quantity defaults to 1 and the
    unit price to the number 0. *)
Definition specified_row (it : value) : result string :=
  let* t := get it "title" in
  let* title := escapeHtml (or_else t (VStr "")) in
  let* q := get it "qty" in
  let* qs := to_string (or_else q (VNum (Int 1))) in
  let* qty := escapeHtml (VStr qs) in
  let* p := get it "price" in
  let* ps := to_string (or_else p (VNum (Int 0))) in
  let* pe := escapeHtml (VStr ps) in
  Ok (row_template title qty (pe ++ " XOF")).

(** Entries that are not objects and on which a property read is defined:
    strings, numbers and booleans. *)
Definition primitive (v : value) : bool :=
  match v with
  | VStr _ | VNum _ | VBool _ => true
  | _ => false
  end.

(** *** Sample inputs *)

Definition items_AB : value :=
  VArr [VObj [("title", VStr "A"); ("qty", VNum (Int 2)); ("price", VNum (Int 500))];
        VObj [("title", VStr "B"); ("qty", VNum (Int 1)); ("price", VNum (Int 1000))]].

Definition order_with_script : value :=
  VArr [VObj [("title", VStr "<script>"); ("qty", VNum (Int 1));
              ("price", VNum (Int 1000))]].

(** The same order with a price that is not a number. *)
Definition entries_bad_price : list value :=
  [VObj [("title", VStr "A"); ("qty", VNum (Int 2)); ("price", VStr "abc")];
   VObj [("title", VStr "B"); ("qty", VNum (Int 1)); ("price", VNum (Int 1000))]].

(** An item without quantity and price. *)
Definition item_title_only : value := VObj [("title", VStr "A")].

(** A configured environment, a relay that refuses verification but accepts
    the message, and a small order. *)
Definition env_sample : Env :=
  mkEnv None (Some "465") (Some "shop@example.com") (Some "secret") None.

Definition world_sample : World :=
  mkWorld (fun _ => Throw (SyntaxError "Unexpected end of JSON input"))
          (fun _ => Throw (mkError "Error" "connect ECONNREFUSED"))
          (fun _ _ => Ok (mkInfo "<1@example.com>" ["shop@example.com"])).

Definition request_sample : Request :=
  mkRequest "POST"
            (VObj [("orderMeta", VObj [("order_number", VStr "CMD-1")]);
                   ("items", items_AB)])
            (mkStream [] None).

Definition request_empty_object : Request :=
  mkRequest "POST" (VObj []) (mkStream [] None).

(** *** Vocabulary of the further properties *)

(** [strip p s]: [s] without its prefix [p], when it has it. *)
Fixpoint strip (p s : string) : option string :=
  match p, s with
  | EmptyString, _ => Some s
  | String a p', String b s' => if Ascii.eqb a b then strip p' s' else None
  | String _ _, EmptyString => None
  end.

(** The reading of an escaped text: each of the five entities stands for its
    character.  It serves to state that escaping loses nothing. *)
Fixpoint unescape (s : string) : string :=
  match s with
  | EmptyString => EmptyString
  | String c s' =>
      let r := unescape s' in
      if Ascii.eqb c "&" then
        match strip "amp;" r, strip "lt;" r, strip "gt;" r, strip "quot;" r, strip "#39;" r with
        | Some t, _, _, _, _ => String "&" t
        | _, Some t, _, _, _ => String "<" t
        | _, _, Some t, _, _ => String ">" t
        | _, _, _, Some t, _ => String (ascii_of_nat 34) t
        | _, _, _, _, Some t => String "'" t
        | _, _, _, _, _ => String c r
        end
      else String c r
  end.

(** Induction on values that reaches the elements of arrays. *)
Fixpoint value_nested_ind (P : value -> Prop)
    (Hundefined : P VUndefined) (Hnull : P VNull)
    (Hbool : forall b, P (VBool b)) (Hnum : forall n, P (VNum n))
    (Hstr : forall s, P (VStr s))
    (Harr : forall xs, Forall P xs -> P (VArr xs))
    (Hobj : forall props, P (VObj props))
    (v : value) : P v :=
  match v with
  | VUndefined => Hundefined
  | VNull => Hnull
  | VBool b => Hbool b
  | VNum n => Hnum n
  | VStr s => Hstr s
  | VArr xs =>
      Harr xs
        ((fix all (l : list value) : Forall P l :=
            match l with
            | [] => Forall_nil P
            | x :: rest =>
                Forall_cons x
                  (value_nested_ind P Hundefined Hnull Hbool Hnum Hstr Harr Hobj x)
                  (all rest)
            end) xs)
  | VObj props => Hobj props
  end.

(** How an array element prints inside [String(array)]. *)
Definition element_string (x : value) : result string :=
  match x with
  | VUndefined | VNull => Ok ""
  | _ => to_string x
  end.

(** The events of a run that reach the network, in order. *)
Definition network_events (t : list event) : list event := filter is_network t.

(** An environment variable set to the empty text, read as unset. *)
Definition blank_as_unset (o : option string) : option string :=
  match o with
  | Some EmptyString => None
  | _ => o
  end.

Definition without_blanks (env : Env) : Env :=
  mkEnv (blank_as_unset (SMTP_HOST env)) (blank_as_unset (SMTP_PORT env))
        (blank_as_unset (SMTP_USER env)) (blank_as_unset (SMTP_PASS env))
        (blank_as_unset (EMAIL_TO env)).

(** A runtime whose parser yields [null]. *)
Definition world_null : World :=
  mkWorld (fun _ => Ok VNull) (smtp_verify world_sample) (smtp_send world_sample).

(** A [TypeError] that carries a message. *)
Definition is_type_error (e : error) : Prop :=
  err_name e = "TypeError" /\ err_message e <> "".

(** The entries of the sample order and their rendered rows. *)
Definition entries_AB : list value :=
  [VObj [("title", VStr "A"); ("qty", VNum (Int 2)); ("price", VNum (Int 500))];
   VObj [("title", VStr "B"); ("qty", VNum (Int 1)); ("price", VNum (Int 1000))]].

(** [escaped s]: [s] is the result of the character replacement. *)
Definition escaped (s : string) : Prop := exists raw, s = replace_special raw.


(** The lines of the sample order. *)
Definition lines_AB : list LineItem :=
  [mkLine "A" (Some 2%Z) (Some 500%Z); mkLine "B" (Some 1%Z) (Some 1000%Z)].

(** [exact_from s lines]: starting from the running total [s], every price,
    quantity, line amount and running total of [lines] is an integer that a
    double holds exactly, so that the arithmetic of the runtime is that of
    the integers. *)
Fixpoint exact_from (s : Z) (lines : list LineItem) : Prop :=
  match lines with
  | [] => True
  | li :: rest =>
      safe s /\
      safe (match line_price li with Some p => p | None => 0%Z end) /\
      safe (match line_qty li with Some q => q | None => 1%Z end) /\
      safe (line_value li) /\
      safe (s + line_value li) /\
      exact_from (s + line_value li) rest
  end.

End Handler.

(** ** Samples on the exact implementation *)

(** The total as the specification words it: each entry contributes its
    price times its quantity, a price that is missing or not a number
    counting as 0 and a quantity that is missing or not a number as 1. *)
Definition numeric_field (default : Z) (it : @value exact_numbers) (k : string) : Z :=
  match it with
  | VObj props =>
      match lookup k props with
      | Some (VNum (Exact.Int z)) => z
      | _ => default
      end
  | _ => default
  end.

Definition specified_total (xs : list (@value exact_numbers)) : Z :=
  sum_Z (map (fun it => numeric_field 0 it "price" * numeric_field 1 it "qty")%Z xs).

Definition order_with_script_html : string := Eval vm_compute in
    match @buildHtml exact_numbers (VObj [("order_number", VStr "A&B")]) order_with_script with
    | Ok html => html
    | Throw _ => ""
    end.

Definition items_AB_html : string := Eval vm_compute in
    match @buildHtml exact_numbers (VObj []) items_AB with
    | Ok html => html
    | Throw _ => ""
    end.

Definition request_sample_html : string := Eval vm_compute in
    match @buildHtml exact_numbers (VObj [("order_number", VStr "CMD-1")]) items_AB with
    | Ok html => html
    | Throw _ => ""
    end.

Definition rows_AB : list string := Eval vm_compute in
    match @array_map exact_numbers _ render_row entries_AB with
    | Ok rows => rows
    | Throw _ => []
    end.

(** * Properties *)

Section Properties.
Context {N : Numbers}.

(** ** Inversion of the exception monad *)

Lemma bind_Ok {A B} (r : result A) (k : A -> result B) (b : B) :
  bind r k = Ok b -> exists a, r = Ok a /\ k a = Ok b.
Proof.
  destruct r as [a | e]; simpl; intro H.
  - exists a. split; [reflexivity | exact H].
  - discriminate H.
Qed.

Ltac invert_binds :=
  repeat match goal with
         | H : bind _ _ = Ok _ |- _ =>
             let a := fresh "x" in
             let Ha := fresh "E" in
             apply bind_Ok in H; destruct H as [a [Ha H]]
         | H : Ok _ = Ok _ |- _ => injection H as H
         end.

(** ** Strings *)

Lemma append_nil_r (s : string) : s ++ "" = s.
Proof. induction s; simpl; congruence. Qed.

Lemma append_assoc (a b c : string) : (a ++ b) ++ c = a ++ b ++ c.
Proof. induction a; simpl; congruence. Qed.

Lemma keep_app f (a b : string) : keep f (a ++ b) = keep f a ++ keep f b.
Proof.
  induction a as [| c a IH]; simpl; [reflexivity |].
  destruct (f c); simpl; rewrite IH; reflexivity.
Qed.

Lemma prefix_nil (s : string) : String.prefix "" s = true.
Proof. destruct s; reflexivity. Qed.

Lemma prefix_app p (a b : string) :
  String.prefix p a = true -> String.prefix p (a ++ b) = true.
Proof.
  revert a; induction p as [| c p IH]; intros a H; [apply prefix_nil |].
  destruct a as [| d a]; simpl in *; [discriminate |].
  destruct (Ascii.ascii_dec c d); [auto | discriminate].
Qed.

Lemma prefix_self_app (p b : string) : String.prefix p (p ++ b) = true.
Proof.
  induction p as [| c p IH]; simpl; [apply prefix_nil |].
  destruct (Ascii.ascii_dec c c); [exact IH | congruence].
Qed.

Lemma mismatch_prefix p (s r : string) :
  mismatch p s = true -> String.prefix p (s ++ r) = false.
Proof.
  revert s; induction p as [| a p IH]; intros s H; [discriminate |].
  destruct s as [| b s]; simpl in *; [discriminate |].
  destruct (Ascii.ascii_dec a b) as [-> | Hne].
  - rewrite Ascii.eqb_refl in H. auto.
  - reflexivity.
Qed.

Lemma mismatch_app p (s r : string) :
  mismatch p s = true -> mismatch p (s ++ r) = true.
Proof.
  revert s; induction p as [| a p IH]; intros s H; [discriminate |].
  destruct s as [| b s]; simpl in *; [discriminate |].
  destruct (Ascii.eqb a b); auto.
Qed.

Lemma closed_app p (a b : string) :
  closed p a = true -> closed p b = true -> closed p (a ++ b) = true.
Proof.
  intros Ha Hb; induction a as [| c a IH]; [exact Hb |].
  cbn [closed append] in *.
  apply andb_true_iff in Ha as [Hm Ha].
  apply andb_true_iff; split; [| auto].
  exact (mismatch_app p (String c a) b Hm).
Qed.

Lemma closed_occurs p (s r : string) :
  closed p s = true -> occurs p (s ++ r) = occurs p r.
Proof.
  intros H; induction s as [| c s IH]; [reflexivity |].
  cbn [closed] in H. apply andb_true_iff in H as [Hm H].
  pose proof (mismatch_prefix p (String c s) r Hm) as Hp.
  cbn [append occurs] in *. rewrite Hp. simpl. auto.
Qed.

Lemma occurs_app_l p (a b : string) :
  occurs p a = true -> occurs p (a ++ b) = true.
Proof.
  induction a as [| c a IH]; cbn [occurs append]; intro H.
  - destruct p; [| discriminate]. destruct b; reflexivity.
  - apply orb_true_iff in H as [H | H]; apply orb_true_iff.
    + left. exact (prefix_app p (String c a) b H).
    + right. auto.
Qed.

Lemma occurs_app_r p (a b : string) :
  occurs p b = true -> occurs p (a ++ b) = true.
Proof.
  intro H; induction a as [| c a IH]; cbn [occurs append]; [exact H |].
  rewrite IH. apply orb_true_r.
Qed.

Lemma occurs_self p : occurs p p = true.
Proof.
  destruct p as [| c p]; [reflexivity |]. simpl.
  destruct (Ascii.ascii_dec c c); [| congruence].
  rewrite <- (append_nil_r p) at 2. rewrite prefix_self_app. reflexivity.
Qed.

Lemma ampersands_escaped_app (a b : string) :
  ampersands_escaped a = true -> ampersands_escaped b = true ->
  ampersands_escaped (a ++ b) = true.
Proof.
  intros Ha Hb; induction a as [| c a IH]; simpl in *; [exact Hb |].
  apply andb_true_iff in Ha as [Hc Ha].
  apply andb_true_iff; split; [| auto].
  destruct (Ascii.eqb c "&"); [| reflexivity].
  unfold entity_tail in *.
  repeat (apply orb_true_iff in Hc as [Hc | Hc]);
    repeat rewrite orb_true_iff; auto 10 using prefix_app.
Qed.

(** ** The character replacement *)

Ltac each_character c := destruct c as [[] [] [] [] [] [] [] []]; reflexivity.

Lemma escape_char_markup c : keep markup (escape_char c) = "".
Proof. each_character c. Qed.

Lemma escape_char_ampersands c : ampersands_escaped (escape_char c) = true.
Proof. each_character c. Qed.

Lemma escape_char_closed c : closed "<script>" (escape_char c) = true.
Proof. each_character c. Qed.

Lemma escaped_markup s : escaped s -> keep markup s = "".
Proof.
  intros [raw ->]. induction raw as [| c raw IH]; simpl; [reflexivity |].
  rewrite keep_app, escape_char_markup, IH. reflexivity.
Qed.

Lemma escaped_ampersands s : escaped s -> ampersands_escaped s = true.
Proof.
  intros [raw ->]. induction raw as [| c raw IH]; simpl; [reflexivity |].
  apply ampersands_escaped_app; [apply escape_char_ampersands | exact IH].
Qed.

Lemma escaped_closed s : escaped s -> closed "<script>" s = true.
Proof.
  intros [raw ->]. induction raw as [| c raw IH]; simpl; [reflexivity |].
  apply closed_app; [apply escape_char_closed | exact IH].
Qed.

Lemma escapeHtml_escaped v s : escapeHtml v = Ok s -> escaped s.
Proof.
  unfold escapeHtml. intro H. invert_binds. subst s. eexists; reflexivity.
Qed.

Lemma escapeHtml_str raw : escapeHtml (VStr raw) = Ok (replace_special raw).
Proof. reflexivity. Qed.

(** ** Shape of the rendered document *)

Lemma render_row_inv it r :
  render_row it = Ok r ->
  exists title qty price,
    escaped title /\ escaped qty /\ escaped price /\
    r = row_template title qty (price ++ " XOF").
Proof.
  unfold render_row. intro H. invert_binds. subst r.
  eauto 10 using escapeHtml_escaped.
Qed.

Lemma buildHtml_inv orderMeta items html :
  buildHtml orderMeta items = Ok html ->
  exists xs rendered total f1 f2 f3 f4 ft f5,
    or_else items (VArr []) = VArr xs /\
    array_map render_row xs = Ok rendered /\
    compute_total items = Ok total /\
    escapeHtml (VStr (number_to_string total)) = Ok ft /\
    escaped f1 /\ escaped f2 /\ escaped f3 /\ escaped f4 /\ escaped ft /\ escaped f5 /\
    html = document f1 f2 f3 f4 (join_empty rendered) ft f5.
Proof.
  unfold buildHtml. intro H. invert_binds. subst html.
  match goal with
  | E : array_method ?v _ = Ok ?xs |- _ =>
      assert (Hxs : v = VArr xs)
        by (destruct v; simpl in E; try discriminate E; congruence)
  end.
  simpl to_string in *. invert_binds. subst.
  match goal with
  | |- context [document ?a ?b ?c ?d (join_empty ?r) ?t ?i] =>
      match goal with
      | Ht : compute_total _ = Ok ?n |- _ => exists x, r, n, a, b, c, d, t, i
      end
  end.
  repeat match goal with
         | |- _ /\ _ => split
         end; eauto using escapeHtml_escaped.
Qed.

Lemma join_empty_cons (x : string) (l : list string) :
  join_empty (x :: l) = x ++ join_empty l.
Proof.
  destruct l; simpl; [symmetry; apply append_nil_r | reflexivity].
Qed.

Lemma array_map_In {B} (f : value -> result B) xs ys it :
  array_map f xs = Ok ys -> In it xs -> exists y, f it = Ok y /\ In y ys.
Proof.
  revert ys; induction xs as [| x xs IH]; intros ys H Hin; [contradiction |].
  simpl in H. invert_binds. subst ys. destruct Hin as [-> | Hin].
  - eexists; split; [eassumption | left; reflexivity].
  - destruct (IH _ ltac:(eassumption) Hin) as [y [Hy Hy']].
    exists y; split; [exact Hy | right; exact Hy'].
Qed.

Lemma join_empty_In (y : string) (ys : list string) :
  In y ys -> exists a b, join_empty ys = a ++ y ++ b.
Proof.
  induction ys as [| x ys IH]; intros Hin; [contradiction |].
  rewrite join_empty_cons. destruct Hin as [-> | Hin].
  - exists "", (join_empty ys). reflexivity.
  - destruct (IH Hin) as [a [b ->]]. exists (x ++ a), b.
    symmetry. apply append_assoc.
Qed.

(** *** The four markup characters come from the template only *)

Lemma row_markup r :
  (exists it, render_row it = Ok r) ->
  keep markup r = keep markup (row_template "" "" " XOF").
Proof.
  intros [it H]. apply render_row_inv in H as (a & b & c & Ha & Hb & Hc & ->).
  unfold row_template, attr. rewrite !keep_app.
  rewrite (escaped_markup a Ha), (escaped_markup b Hb), (escaped_markup c Hc).
  reflexivity.
Qed.

Lemma rows_markup xs rendered :
  array_map render_row xs = Ok rendered ->
  keep markup (join_empty rendered)
  = keep markup (join_empty (repeat (row_template "" "" " XOF") (List.length xs))).
Proof.
  revert rendered; induction xs as [| x xs IH]; intros rendered H; simpl in H.
  - injection H as <-. reflexivity.
  - invert_binds. subst rendered. cbn [List.length repeat].
    rewrite !join_empty_cons, !keep_app. f_equal; [| apply IH; assumption].
    apply row_markup. eexists; eassumption.
Qed.

Lemma document_markup a b c d rows rows' t i :
  escaped a -> escaped b -> escaped c -> escaped d -> escaped t -> escaped i ->
  keep markup rows = keep markup rows' ->
  keep markup (document a b c d rows t i)
  = keep markup (document "" "" "" "" rows' "" "").
Proof.
  intros Ha Hb Hc Hd Ht Hi Hr.
  unfold document, total_row, header_cells, attr. rewrite !keep_app.
  rewrite (escaped_markup a Ha), (escaped_markup b Hb), (escaped_markup c Hc),
    (escaped_markup d Hd), (escaped_markup t Ht), (escaped_markup i Hi), Hr.
  reflexivity.
Qed.

(** *** Every ampersand starts an entity *)

Ltac by_parts lemma :=
  repeat first [ assumption | reflexivity | apply lemma ].

Lemma row_ampersands it r :
  render_row it = Ok r -> ampersands_escaped r = true.
Proof.
  intro H. apply render_row_inv in H as (a & b & c & Ha & Hb & Hc & ->).
  apply escaped_ampersands in Ha, Hb, Hc.
  unfold row_template, attr. by_parts ampersands_escaped_app.
Qed.

Lemma rows_ampersands xs rendered :
  array_map render_row xs = Ok rendered ->
  ampersands_escaped (join_empty rendered) = true.
Proof.
  revert rendered; induction xs as [| x xs IH]; intros rendered H; simpl in H.
  - injection H as <-. reflexivity.
  - invert_binds. subst rendered. rewrite join_empty_cons.
    apply ampersands_escaped_app; [eapply row_ampersands; eassumption | auto].
Qed.

Lemma document_ampersands a b c d rows t i :
  escaped a -> escaped b -> escaped c -> escaped d -> escaped t -> escaped i ->
  ampersands_escaped rows = true ->
  ampersands_escaped (document a b c d rows t i) = true.
Proof.
  intros Ha Hb Hc Hd Ht Hi Hr.
  apply escaped_ampersands in Ha, Hb, Hc, Hd, Ht, Hi.
  unfold document, total_row, header_cells, attr.
  by_parts ampersands_escaped_app.
Qed.

(** *** No script tag can start anywhere *)

Lemma row_closed it r :
  render_row it = Ok r -> closed "<script>" r = true.
Proof.
  intro H. apply render_row_inv in H as (a & b & c & Ha & Hb & Hc & ->).
  apply escaped_closed in Ha, Hb, Hc.
  unfold row_template, attr. by_parts closed_app.
Qed.

Lemma rows_closed xs rendered :
  array_map render_row xs = Ok rendered ->
  closed "<script>" (join_empty rendered) = true.
Proof.
  revert rendered; induction xs as [| x xs IH]; intros rendered H; simpl in H.
  - injection H as <-. reflexivity.
  - invert_binds. subst rendered. rewrite join_empty_cons.
    apply closed_app; [eapply row_closed; eassumption | auto].
Qed.

Lemma document_closed a b c d rows t i :
  escaped a -> escaped b -> escaped c -> escaped d -> escaped t -> escaped i ->
  closed "<script>" rows = true ->
  closed "<script>" (document a b c d rows t i) = true.
Proof.
  intros Ha Hb Hc Hd Ht Hi Hr.
  apply escaped_closed in Ha, Hb, Hc, Hd, Ht, Hi.
  unfold document, total_row, header_cells, attr.
  by_parts closed_app.
Qed.

(** *** An escaped title is visible in the document *)

Ltac find_occurrence :=
  lazymatch goal with
  | H : occurs ?p ?s = true |- occurs ?p ?s = true => exact H
  | |- occurs ?p ?p = true => apply occurs_self
  | |- occurs ?p (?a ++ ?b) = true =>
      first [ apply (occurs_app_l p a b); find_occurrence
            | apply (occurs_app_r p a b); find_occurrence ]
  end.

Lemma row_shows_title props r :
  render_row (VObj props) = Ok r ->
  lookup "title" props = Some (VStr "<script>") ->
  occurs "&lt;script&gt;" r = true.
Proof.
  unfold render_row. cbn [get]. intros H Ht. rewrite Ht in H.
  cbn [bind] in H. change (or_else (VStr "<script>") (VStr "")) with (VStr "<script>") in H.
  rewrite escapeHtml_str in H. cbn [bind] in H.
  invert_binds. subst r. unfold row_template.
  change (replace_special "<script>") with "&lt;script&gt;".
  find_occurrence.
Qed.

Lemma rows_show_title xs rendered props :
  array_map render_row xs = Ok rendered ->
  In (VObj props) xs ->
  lookup "title" props = Some (VStr "<script>") ->
  occurs "&lt;script&gt;" (join_empty rendered) = true.
Proof.
  intros H Hin Ht.
  destruct (array_map_In _ _ _ _ H Hin) as [r [Hr Hr']].
  destruct (join_empty_In _ _ Hr') as [a [b ->]].
  pose proof (row_shows_title props r Hr Ht). find_occurrence.
Qed.

(** C2. Every value interpolated by [buildHtml] goes through [escapeHtml]:
    whatever the order contains, the characters [<], [>], the double quote
    and the apostrophe of the rendered document are exactly those of the
    template (the document rendered with blank fields and as many rows), and
    every ampersand starts one of the five entities.  In particular an item
    titled [<script>] shows as [&lt;script&gt;], and the document contains no
    [<script>] tag. *)
Theorem buildHtml_escapes_every_field orderMeta items html :
  buildHtml orderMeta items = Ok html ->
  exists xs,
    or_else items (VArr []) = VArr xs /\
    keep markup html = keep markup (blank_document (List.length xs)) /\
    ampersands_escaped html = true /\
    occurs "<script>" html = false /\
    (forall props,
        In (VObj props) xs ->
        lookup "title" props = Some (VStr "<script>") ->
        occurs "&lt;script&gt;" html = true).
Proof.
  intro H.
  apply buildHtml_inv in H
    as (xs & rendered & total & f1 & f2 & f3 & f4 & ft & f5
        & Hxs & Hmap & _ & _ & H1 & H2 & H3 & H4 & Ht & H5 & ->).
  pose proof (rows_markup _ _ Hmap) as Rm.
  pose proof (rows_ampersands _ _ Hmap) as Ra.
  pose proof (rows_closed _ _ Hmap) as Rc.
  exists xs. unfold blank_document.
  split; [exact Hxs |]. split; [| split; [| split]].
  - exact (document_markup _ _ _ _ _ _ _ _ H1 H2 H3 H4 Ht H5 Rm).
  - exact (document_ampersands _ _ _ _ _ _ _ H1 H2 H3 H4 Ht H5 Ra).
  - pose proof (document_closed _ _ _ _ _ _ _ H1 H2 H3 H4 Ht H5 Rc) as Dc.
    rewrite <- (append_nil_r (document f1 f2 f3 f4 (join_empty rendered) ft f5)).
    rewrite (closed_occurs _ _ "" Dc). reflexivity.
  - intros props Hin Htitle.
    pose proof (rows_show_title _ _ _ Hmap Hin Htitle) as Hocc.
    unfold document. find_occurrence.
Qed.

(** ** The total *)

Lemma add_line_amount s it s' :
  add_line s it = Ok s' -> exists a, line_amount it = Ok a /\ s' = nadd s a.
Proof.
  unfold add_line, line_amount. intro H. invert_binds. subst s'.
  repeat match goal with
         | E : _ = Ok _ |- _ => rewrite E; clear E; cbn [bind]
         end.
  eexists; split; reflexivity.
Qed.

Ltac prove_safe :=
  unfold safe; change (2 ^ 53)%Z with 9007199254740992%Z; cbn; lia.

Lemma replace_special_plain (s : string) :
  keep special s = "" -> replace_special s = s.
Proof.
  induction s as [| c s IH]; [reflexivity |].
  cbn [keep replace_special]. destruct (special c) eqn:S; [discriminate |].
  intro H. rewrite (IH H).
  assert (E : escape_char c = String c "").
  { revert S. destruct c as [[] [] [] [] [] [] [] []]; intro S;
      first [reflexivity | cbv in S; discriminate S]. }
  rewrite E. reflexivity.
Qed.

Lemma printed_number_plain (n : number) :
  replace_special (number_to_string n) = number_to_string n.
Proof. apply replace_special_plain, number_to_string_plain. Qed.

Lemma reduce_is_fold xs : forall s t,
  array_reduce add_line s xs = Ok t ->
  exists amounts, array_map line_amount xs = Ok amounts /\ t = fold_left nadd amounts s.
Proof.
  induction xs as [| x xs IH]; intros s t H; simpl in H.
  - injection H as <-. exists []. split; reflexivity.
  - invert_binds.
    match goal with E : add_line _ _ = Ok _ |- _ =>
      apply add_line_amount in E as [a [Ea ->]] end.
    destruct (IH _ _ H) as [amounts [Hm ->]].
    exists (a :: amounts). simpl. rewrite Ea, Hm. simpl.
    split; reflexivity.
Qed.

Lemma to_number_or_else_Int z d :
  to_number (or_else (VNum (Int z)) (VNum (Int d)))
  = Ok (Int (if Z.eqb z 0 then d else z)).
Proof.
  unfold or_else. cbn [truthy]. rewrite number_truthy_Int.
  destruct (Z.eqb z 0); reflexivity.
Qed.

Lemma to_number_or_else_absent d :
  to_number (or_else VUndefined (VNum (Int d))) = Ok (Int d).
Proof. reflexivity. Qed.

Lemma add_line_encode s li :
  safe s ->
  safe (match line_price li with Some p => p | None => 0%Z end) ->
  safe (match line_qty li with Some q => q | None => 1%Z end) ->
  safe (line_value li) ->
  safe (s + line_value li) ->
  add_line (Int s) (encode li) = Ok (Int (s + line_value li)).
Proof.
  destruct li as [t [q |] [p |]];
    unfold add_line, encode, line_value;
    cbn [line_title line_qty line_price app get lookup String.eqb Ascii.eqb Bool.eqb bind];
    intros Hs Hp Hq Hv Hsum;
    rewrite ?to_number_or_else_Int, ?to_number_or_else_absent; cbn [bind];
    repeat match goal with
           | |- context [Z.eqb ?z 0] => destruct (Z.eqb_spec z 0); subst
           | H : context [Z.eqb ?z 0] |- _ => destruct (Z.eqb_spec z 0); subst
           end;
    (rewrite nmul_exact; [rewrite nadd_exact; [reflexivity | ..] | ..]);
    first [assumption | prove_safe].
Qed.

Lemma reduce_encode lines : forall s,
  exact_from s lines ->
  array_reduce add_line (Int s) (map encode lines)
  = Ok (Int (s + sum_Z (map line_value lines))).
Proof.
  induction lines as [| li lines IH]; intros s H; cbn [map array_reduce].
  - cbn [sum_Z fold_right]. rewrite Z.add_0_r. reflexivity.
  - cbn [exact_from] in H. destruct H as (Hs & Hp & Hq & Hv & Hsum & Hrest).
    rewrite add_line_encode by assumption. cbn [bind]. rewrite (IH _ Hrest).
    do 2 f_equal. unfold sum_Z. cbn [fold_right]. lia.
Qed.

Lemma compute_total_array items xs :
  or_else items (VArr []) = VArr xs ->
  compute_total items = array_reduce add_line (Int 0) xs.
Proof. unfold compute_total. intros ->. reflexivity. Qed.

(** C1 (as amended). Whenever the document renders, its total row shows the
    total that the reduction computes: starting from 0 and going through the
    entries of [items] in order, it adds [Number(price || 0)] times
    [Number(qty || 1)] with the arithmetic of the runtime.  When prices and
    quantities are integers and every amount and running total stays within
    2^53, that is the integer sum in which an absent price counts as 0 and
    an absent (or zero) quantity as 1.  For the items A (2 x 500) and
    B (1 x 1000) the total is 2000. *)
Theorem total_row_shows_the_sum orderMeta items html :
  buildHtml orderMeta items = Ok html ->
  exists xs total amounts,
    or_else items (VArr []) = VArr xs /\
    compute_total items = Ok total /\
    array_map line_amount xs = Ok amounts /\
    total = fold_left nadd amounts (Int 0) /\
    occurs (total_row (number_to_string total)) html = true /\
    (forall lines,
        xs = map encode lines -> exact_from 0 lines ->
        total = Int (sum_Z (map line_value lines))) /\
    (items = items_AB -> total = Int 2000).
Proof.
  intro H.
  apply buildHtml_inv in H
    as (xs & rendered & total & f1 & f2 & f3 & f4 & ft & f5
        & Hxs & _ & Htot & Hft & _ & _ & _ & _ & _ & _ & ->).
  pose proof Htot as Hred. rewrite (compute_total_array _ _ Hxs) in Hred.
  destruct (reduce_is_fold _ _ _ Hred) as [amounts [Hm Hs]].
  assert (Htyped : forall lines,
             xs = map encode lines -> exact_from 0 lines ->
             total = Int (sum_Z (map line_value lines))).
  { intros lines -> Hex. rewrite (reduce_encode _ _ Hex) in Hred.
    rewrite Z.add_0_l in Hred. congruence. }
  exists xs, total, amounts. repeat match goal with |- _ /\ _ => split end; auto.
  - rewrite escapeHtml_str, printed_number_plain in Hft. injection Hft as <-.
    unfold document. find_occurrence.
  - intros ->. injection Hxs as <-.
    apply (Htyped lines_AB); [reflexivity |].
    cbn [exact_from lines_AB line_price line_qty].
    repeat match goal with |- _ /\ _ => split end;
      first [exact I | unfold line_value; cbn [line_price line_qty]; prove_safe].
Qed.

(** ** Table rows *)

Lemma escapeHtml_default t :
  escapeHtml (or_else t (VStr ""))
  = (let* s := to_string (or_else t (VStr "")) in Ok (replace_special s)).
Proof.
  unfold escapeHtml, or_else. destruct (truthy t) eqn:T; [| reflexivity].
  destruct t; try reflexivity. discriminate T.
Qed.

Lemma render_row_cells it r :
  render_row it = Ok r ->
  exists t q p ts qs ps,
    get it "title" = Ok t /\ get it "qty" = Ok q /\ get it "price" = Ok p /\
    to_string (or_else t (VStr "")) = Ok ts /\
    to_string (or_else q (VNum (Int 1))) = Ok qs /\
    to_string (or_else p (VStr "")) = Ok ps /\
    r = row_template (replace_special ts) (replace_special qs)
                     (replace_special ps ++ " XOF").
Proof.
  unfold render_row. intro H. invert_binds.
  repeat match goal with
         | E : escapeHtml (VStr _) = Ok _ |- _ =>
             rewrite escapeHtml_str in E; injection E as <-
         | E : escapeHtml (or_else _ _) = Ok _ |- _ =>
             rewrite escapeHtml_default in E; invert_binds
         end.
  subst.
  do 6 eexists. repeat match goal with |- _ /\ _ => split end;
    [eassumption .. | reflexivity].
Qed.

(** C7 (as amended). In a rendered row the quantity cell shows 1 when [qty]
    is absent or falsy and the escaped [String(qty)] otherwise; the price
    cell shows the escaped [String(price)] when [price] is truthy and nothing
    when it is absent or falsy, followed by the suffix [ XOF]. *)
Theorem row_shows_defaults it r :
  render_row it = Ok r ->
  exists q p qty price,
    get it "qty" = Ok q /\ get it "price" = Ok p /\
    (exists title, r = row_template title qty (price ++ " XOF")) /\
    (truthy q = false -> qty = "1") /\
    (truthy q = true -> exists s, to_string q = Ok s /\ qty = replace_special s) /\
    (truthy p = false -> price = "") /\
    (truthy p = true -> exists s, to_string p = Ok s /\ price = replace_special s).
Proof.
  intro H.
  apply render_row_cells in H
    as (t & q & p & ts & qs & ps & _ & Hq & Hp & _ & Hqs & Hps & ->).
  exists q, p, (replace_special qs), (replace_special ps).
  unfold or_else in Hqs, Hps.
  repeat match goal with |- _ /\ _ => split end; auto.
  - eexists; reflexivity.
  - intro F. rewrite F in Hqs. cbn [to_string] in Hqs.
    rewrite number_to_string_Int in Hqs by prove_safe. injection Hqs as <-.
    reflexivity.
  - intro T. rewrite T in Hqs. eauto.
  - intro F. rewrite F in Hps. injection Hps as <-. reflexivity.
  - intro T. rewrite T in Hps. eauto.
Qed.

(** ** Entries that are not objects *)

Lemma render_row_primitive it :
  primitive it = true -> render_row it = Ok (row_template "" "1" " XOF").
Proof.
  assert (Q : to_string (or_else VUndefined (VNum (Int 1))) = Ok "1").
  { cbn [or_else truthy to_string]. rewrite number_to_string_Int by prove_safe.
    reflexivity. }
  destruct it; try discriminate; intros _; unfold render_row;
    cbn [get bind]; rewrite Q; reflexivity.
Qed.

Lemma add_line_primitive s it :
  primitive it = true -> add_line s it = Ok (nadd s (Int 0)).
Proof.
  destruct it; try discriminate; intros _; unfold add_line;
    cbn [get bind]; rewrite !to_number_or_else_absent; cbn [bind];
    rewrite nmul_exact by prove_safe; reflexivity.
Qed.

Lemma rows_primitive xs :
  forallb primitive xs = true ->
  array_map render_row xs
  = Ok (repeat (row_template "" "1" " XOF") (List.length xs)).
Proof.
  induction xs as [| x xs IH]; intro H; [reflexivity |].
  cbn [forallb] in H. apply andb_true_iff in H as [Hx H].
  cbn [array_map]. rewrite (render_row_primitive x Hx), (IH H). reflexivity.
Qed.

Lemma total_primitive xs :
  forallb primitive xs = true ->
  array_reduce add_line (Int 0) xs = Ok (Int 0).
Proof.
  induction xs as [| x xs IH]; intros H; [reflexivity |].
  cbn [forallb] in H. apply andb_true_iff in H as [Hx H].
  cbn [array_reduce]. rewrite (add_line_primitive _ x Hx). cbn [bind].
  rewrite nadd_exact by prove_safe. auto.
Qed.

(** C9 (as amended). When every entry of [items] is a string, a number or a
    boolean, rendering succeeds whenever the order metadata renders: each entry
    becomes the row with an empty title, quantity 1 and an empty price, it
    adds nothing to the total, and the rest of the document is unchanged. *)
Theorem primitive_entries_render_as_blank_rows orderMeta xs html0 :
  forallb primitive xs = true ->
  buildHtml orderMeta (VArr []) = Ok html0 ->
  array_map render_row xs
  = Ok (repeat (row_template "" "1" " XOF") (List.length xs)) /\
  compute_total (VArr xs) = Ok (Int 0) /\
  exists a b c d i,
    html0 = document a b c d "" "0" i /\
    buildHtml orderMeta (VArr xs)
    = Ok (document a b c d
            (join_empty (repeat (row_template "" "1" " XOF") (List.length xs)))
            "0" i).
Proof.
  intros Hp H0.
  pose proof (rows_primitive xs Hp) as Hrows.
  pose proof (total_primitive xs Hp) as Htot.
  split; [exact Hrows |]. split; [exact Htot |].
  unfold buildHtml in *. unfold compute_total in *.
  change (or_else (VArr xs) (VArr [])) with (VArr xs).
  change (or_else (VArr []) (VArr [])) with (VArr []) in H0.
  cbn [array_method array_map array_reduce bind] in *.
  rewrite Hrows, Htot. cbn [bind].
  invert_binds.
  repeat match goal with
         | E : to_string (VNum _) = Ok _ |- _ =>
             cbn [to_string] in E; injection E as <-
         | E : escapeHtml (VStr _) = Ok _ |- _ =>
             rewrite escapeHtml_str in E; injection E as <-
         end.
  repeat first
    [ match goal with
      | E : _ = Ok _ |- _ => rewrite E; clear E; cbn [bind]
      end
    | progress cbn [bind to_string]
    | rewrite escapeHtml_str; cbn [bind] ].
  subst html0.
  rewrite (number_to_string_Int 0) by prove_safe.
  change (replace_special (decimal 0)) with "0".
  match goal with
  | |- context [Ok (document ?a ?b ?c ?d _ _ ?i)] => exists a, b, c, d, i
  end.
  split; reflexivity.
Qed.

(** ** Runs of the handler *)

Lemma getRawBody_run req :
  getRawBody req
  = ([ReadStream],
     match failure (stream req) with
     | None => Ok (String.concat "" (chunks (stream req)))
     | Some err => Throw err
     end).
Proof. unfold getRawBody. destruct (failure (stream req)); reflexivity. Qed.

Ltac run_step :=
  cbn [mbind try_catch lift emit ret respond fst snd trace app];
  match goal with
  | |- context [match ?r with Ok _ => _ | Throw _ => _ end] =>
      lazymatch r with
      | Ok _ => fail
      | Throw _ => fail
      | _ => destruct r eqn:?
      end
  | |- context [match ?o with Some _ => _ | None => _ end] => destruct o eqn:?
  | |- context [if ?b then _ else _] => destruct b eqn:?
  end.

Ltac split_all := repeat match goal with |- _ /\ _ => split end.

(** Membership in an explicit trace. *)
Ltac pick_event H :=
  cbn [In] in H;
  repeat (destruct H as [H | H];
          [ first [ discriminate H | injection H as ? ?; subst | injection H as ?; subst ]
          | ]);
  try contradiction.


(** C3. A request whose method is not POST gets the header [Allow: POST]
    and the response 405 with the error body, and nothing else happens: the
    run consists of these two actions. *)
Theorem non_post_is_rejected env w req :
  method req <> "POST" ->
  handler env w req
  = ([SetHeader "Allow" "POST";
      Respond 405 (VObj [("error", VStr "Method not allowed")])], Ok tt) /\
  existsb is_network (trace (handler env w req)) = false.
Proof.
  intro H. unfold handler.
  destruct (String.eqb_spec (method req) "POST"); [contradiction |].
  split; reflexivity.
Qed.

(** C4. A POST request handled without an SMTP account or without an SMTP
    secret is answered 500 with the configuration error, whatever its body;
    besides the log line nothing happens, in particular nothing reaches the
    network. *)
Theorem missing_credentials_are_fatal env w req :
  method req = "POST" ->
  SMTP_USER env = None \/ SMTP_PASS env = None ->
  handler env w req
  = ([ConsoleError "SMTP credentials not configured (SMTP_USER/SMTP_PASS)" None;
      Respond 500 (VObj [("error", VStr "SMTP credentials not configured")])],
     Ok tt) /\
  existsb is_network (trace (handler env w req)) = false.
Proof.
  intros Hm Hc. unfold handler, user, pass. rewrite Hm.
  change (negb ("POST" =? "POST")%string) with false. cbn iota.
  destruct Hc as [-> | ->]; cbn [env_value truthy negb orb];
    rewrite ?orb_true_r; split; reflexivity.
Qed.

Lemma without_warnings_of_failed_verify env w req e :
  smtp_verify w (transport_options env) = Throw e ->
  without_warnings (trace (handler env w req))
  = trace (handler env (with_verify_ok w) req).
Proof.
  intros Hv.
  unfold handler, send_order, read_body; rewrite ?getRawBody_run.
  cbn [with_verify_ok json_parse smtp_verify smtp_send].
  rewrite Hv.
  repeat run_step;
    cbn [mbind try_catch lift emit ret respond fst snd trace app without_warnings];
    reflexivity.
Qed.

Lemma read_body_events w req :
  fst (read_body w req) = [] \/ fst (read_body w req) = [ReadStream].
Proof.
  unfold read_body. rewrite getRawBody_run.
  destruct (truthy _); [left; reflexivity | right].
  destruct (failure (stream req)); reflexivity.
Qed.

Lemma user_text env : truthy (user env) = true -> exists u, user env = VStr u.
Proof.
  unfold user. destruct (SMTP_USER env) as [s |]; cbn [env_value];
    [intros _; exists s; reflexivity | discriminate].
Qed.

Lemma optional_get_default orderMeta k :
  optional_get orderMeta k = get (or_else orderMeta (VObj [])) k.
Proof.
  unfold or_else. destruct orderMeta; try reflexivity;
    cbn [truthy optional_get];
    match goal with |- context [if ?b then _ else _] => destruct b end;
    reflexivity.
Qed.

Lemma subject_after_render orderMeta items html :
  buildHtml (or_else orderMeta (VObj [])) items = Ok html ->
  exists number shown,
    optional_get orderMeta "order_number" = Ok number /\
    to_string (or_else number (VStr "")) = Ok shown.
Proof.
  unfold buildHtml. intro H. invert_binds.
  match goal with
  | E : get _ "order_number" = Ok ?x,
    E' : escapeHtml (or_else ?x (VStr "")) = Ok _ |- _ =>
      rewrite escapeHtml_default in E'; apply bind_Ok in E' as [shown [Es _]];
      exists x, shown; split; [rewrite optional_get_default; exact E | exact Es]
  end.
Qed.

(** C5. For a POST request with credentials whose body is read and whose
    order renders, a failing connection verification changes nothing but the
    log: after the transport is created and the verification attempted, the
    warning is logged with the failure's message, the message is sent all
    the same, and the send alone decides the answer: 200 with the
    acknowledgement when it succeeds, 500 with its error when it fails.  The
    run is that of a succeeding verification plus the warning. *)
Theorem verification_failure_is_only_logged env w req e body orderMeta items html :
  method req = "POST" ->
  truthy (user env) = true ->
  truthy (pass env) = true ->
  snd (read_body w req) = Ok body ->
  get body "orderMeta" = Ok orderMeta ->
  get body "items" = Ok items ->
  buildHtml (or_else orderMeta (VObj [])) (or_else items (VArr [])) = Ok html ->
  smtp_verify w (transport_options env) = Throw e ->
  exists mail,
    mail_html mail = html /\
    mail_to mail = destination env /\
    trace (handler env w req)
    = (fst (read_body w req)
       ++ [CreateTransport (transport_options env);
           Verify (transport_options env);
           ConsoleWarn "SMTP verify warning:" (err_message e);
           SendMail (transport_options env) mail]
       ++ match smtp_send w (transport_options env) mail with
          | Ok info =>
              [Respond 200 (VObj [("ok", VBool true);
                                  ("messageId", VStr (messageId info));
                                  ("accepted", VArr (map VStr (accepted info)))])]
          | Throw err =>
              [ConsoleError "api/send-email error" (Some err);
               Respond 500 (error_body err)]
          end)%list /\
    without_warnings (trace (handler env w req))
    = trace (handler env (with_verify_ok w) req).
Proof.
  intros Hm Hu Hp Hb Hom Hit Hhtml Hv.
  destruct (subject_after_render _ _ _ Hhtml) as (number & shown & Hn & Hshown).
  destruct (user_text env Hu) as [u Eu].
  exists (mkMail (dquote ++ "Medical Shop" ++ dquote ++ " <" ++ u ++ ">")
                 (destination env) ("Nouvelle commande " ++ shown) html).
  split; [reflexivity |]. split; [reflexivity |].
  split; [| exact (without_warnings_of_failed_verify env w req e Hv)].
  unfold handler, send_order. rewrite Hm, Hu, Hp.
  change (negb ("POST" =? "POST")%string) with false. cbn [negb orb].
  destruct (read_body_events w req) as [E | E];
    destruct (read_body w req) as [t0 rb]; cbn [fst snd] in *; subst t0 rb;
    cbn [mbind lift]; rewrite Hom, Hit; cbn [mbind lift emit try_catch];
    rewrite Hv, Hhtml, Hn, Hshown, Eu;
    cbn [mbind lift emit try_catch to_string];
    match goal with
    | |- context [smtp_send w ?o ?m] => destruct (smtp_send w o m)
    end; reflexivity.
Qed.




(** C8. The transport is created for the configured host, [smtp.gmail.com]
    when none is set, and the configured port, 587 when none is set; it uses
    implicit TLS exactly when the port is 465; it authenticates with the
    configured account and secret; and the message goes to the configured
    destination, the SMTP account when none is set.  Every transport and
    every message of a run of the handler carry this configuration. *)
Theorem dispatch_configuration env :
  (SMTP_HOST env = None -> host env = VStr "smtp.gmail.com") /\
  (forall h, SMTP_HOST env = Some h -> h <> "" -> host env = VStr h) /\
  (SMTP_PORT env = None -> port env = Int 587) /\
  (forall p, SMTP_PORT env = Some p -> p <> "" -> port env = string_to_number p) /\
  (opt_secure (transport_options env) = true <-> port env = Int 465) /\
  opt_host (transport_options env) = host env /\
  opt_port (transport_options env) = port env /\
  opt_auth_user (transport_options env) = env_value (SMTP_USER env) /\
  opt_auth_pass (transport_options env) = env_value (SMTP_PASS env) /\
  (EMAIL_TO env = None -> destination env = env_value (SMTP_USER env)) /\
  (forall d, EMAIL_TO env = Some d -> d <> "" -> destination env = VStr d) /\
  (forall w req ev,
      In ev (trace (handler env w req)) ->
      match ev with
      | CreateTransport opts | Verify opts => opts = transport_options env
      | SendMail opts mail =>
          opts = transport_options env /\ mail_to mail = destination env
      | _ => True
      end).
Proof.
  split_all; try reflexivity.
  - unfold host. intros ->. reflexivity.
  - unfold host, or_else. intros h -> Hh. cbn [env_value truthy].
    destruct (String.eqb_spec h ""); [contradiction | reflexivity].
  - unfold port. intros ->. reflexivity.
  - unfold port. intros p -> Hp. cbn [env_value truthy].
    destruct (String.eqb_spec p ""); [contradiction | reflexivity].
  - cbn [transport_options opt_secure].
    apply nstrict_eq_Int; [prove_safe | discriminate].
  - unfold destination. intros ->. reflexivity.
  - unfold destination, or_else. intros d -> Hd. cbn [env_value truthy].
    destruct (String.eqb_spec d ""); [contradiction | reflexivity].
  - intros w req ev. unfold handler, send_order, read_body; rewrite ?getRawBody_run.
    destruct (failure (stream req)) eqn:Hf;
      repeat run_step;
      cbn [mbind try_catch lift emit ret respond fst snd trace app];
      intro H; cbn [In] in H;
      repeat (destruct H as [<- | H]; [try exact I; try reflexivity; try (split; reflexivity) |]);
      try contradiction.
Qed.


(** * Further properties *)

(** ** [escapeHtml]: nothing is lost, nothing else is changed *)

Lemma replace_special_app (a b : string) :
  replace_special (a ++ b) = replace_special a ++ replace_special b.
Proof.
  induction a as [| c a IH]; cbn [append replace_special]; [reflexivity |].
  rewrite IH. symmetry. apply append_assoc.
Qed.

Lemma unescape_step c (s : string) :
  unescape (escape_char c ++ s)
  = match unescape (escape_char c ++ "") with
    | String d _ => String d (unescape s)
    | EmptyString => unescape s
    end
  /\ unescape (escape_char c ++ "") = String c "".
Proof. destruct c as [[] [] [] [] [] [] [] []]; split; reflexivity. Qed.

Lemma unescape_replace_special (s : string) : unescape (replace_special s) = s.
Proof.
  induction s as [| c s IH]; [reflexivity |].
  cbn [replace_special].
  destruct (unescape_step c (replace_special s)) as [-> ->].
  rewrite IH. reflexivity.
Qed.

Lemma replace_special_length (s : string) :
  String.length s <= String.length (replace_special s).
Proof.
  induction s as [| c s IH]; [apply le_n |].
  cbn [replace_special].
  assert (H : forall a b, String.length (a ++ b) = String.length a + String.length b).
  { intros a b. induction a; simpl; congruence. }
  rewrite H.
  assert (1 <= String.length (escape_char c))
    by (destruct c as [[] [] [] [] [] [] [] []]; cbn; lia).
  cbn [String.length]. lia.
Qed.

Lemma escape_char_special c :
  (special c = false /\ escape_char c = String c "")
  \/ (special c = true /\ exists t, escape_char c = String "&" t /\ t <> ""
      /\ keep special (escape_char c) = "&").
Proof.
  destruct c as [[] [] [] [] [] [] [] []];
    first [ left; split; reflexivity
          | right; split; [reflexivity |]; eexists; split; [reflexivity |];
            split; [discriminate | reflexivity] ].
Qed.

(** X1. Escaping loses nothing: the text can be read back from its escaped
    form, so two different texts never have the same escaped form. *)
Theorem escapeHtml_is_injective (a b : string) :
  unescape (replace_special a) = a /\
  (escapeHtml (VStr a) = escapeHtml (VStr b) -> a = b).
Proof.
  split; [apply unescape_replace_special |].
  rewrite !escapeHtml_str. intro H. injection H as H.
  rewrite <- (unescape_replace_special a), <- (unescape_replace_special b).
  congruence.
Qed.

(** X2. [escapeHtml] leaves a text unchanged exactly when the text holds none
    of the five characters. *)
Theorem escapeHtml_fixes_plain_text (s : string) :
  escapeHtml (VStr s) = Ok s <-> keep special s = "".
Proof.
  rewrite escapeHtml_str. split.
  - intro H. injection H as H. induction s as [| c s IH]; [reflexivity |].
    cbn [replace_special keep] in *.
    destruct (escape_char_special c) as [[Hs Hc] | [Hs [t [Hc [Ht _]]]]];
      rewrite Hc in H; rewrite Hs.
    + cbn [append] in H. injection H as H. auto.
    + exfalso. cbn [append] in H. injection H as Hc1 Hs1.
      pose proof (replace_special_length s) as L.
      assert (String.length (t ++ replace_special s) = String.length s) by congruence.
      assert (Hl : forall x y, String.length (x ++ y) = String.length x + String.length y).
      { intros x y. induction x; simpl; congruence. }
      rewrite Hl in H. destruct t; [congruence | cbn [String.length] in H; lia].
  - intro H. f_equal. induction s as [| c s IH]; [reflexivity |].
    cbn [replace_special keep] in *.
    destruct (escape_char_special c) as [[Hs Hc] | [Hs _]]; rewrite Hs in H.
    + rewrite Hc. cbn [append]. f_equal. auto.
    + discriminate H.
Qed.

Lemma keep_special_escaped (s : string) :
  keep special (replace_special s) = "" <-> keep special s = "".
Proof.
  induction s as [| c s IH]; [tauto |].
  cbn [replace_special keep]. rewrite keep_app.
  destruct (escape_char_special c) as [[Hs Hc] | [Hs [t [_ [_ Hk]]]]]; rewrite Hs.
  - rewrite Hc. cbn [keep]. rewrite Hs. exact IH.
  - rewrite Hk. cbn [append]. split; discriminate.
Qed.

(** X3. Escaping is not idempotent: escaping an escaped text changes it again
    unless the original text holds none of the five characters. *)
Theorem escaping_twice (s : string) :
  replace_special (replace_special s) = replace_special s <-> keep special s = "".
Proof.
  rewrite <- keep_special_escaped.
  pose proof (escapeHtml_fixes_plain_text (replace_special s)) as H.
  rewrite escapeHtml_str in H. rewrite <- H. split; congruence.
Qed.

(** X4. Escaping distributes over concatenation: escaping the pieces of a
    text and joining them gives the escaped text. *)
Theorem escapeHtml_concatenation (a b : string) :
  escapeHtml (VStr (a ++ b))
  = (let* x := escapeHtml (VStr a) in let* y := escapeHtml (VStr b) in Ok (x ++ y)).
Proof. rewrite !escapeHtml_str. cbn [bind]. f_equal. apply replace_special_app. Qed.

(** ** What rendering can raise *)

Lemma bind_Throw {A B} (r : result A) (k : A -> result B) (e : error) :
  bind r k = Throw e -> r = Throw e \/ exists a, r = Ok a /\ k a = Throw e.
Proof.
  destruct r as [a | e']; simpl; intro H.
  - right. exists a. split; [reflexivity | exact H].
  - left. injection H as ->. reflexivity.
Qed.

Lemma to_string_array_one x : to_string (VArr [x]) = element_string x.
Proof. reflexivity. Qed.

Lemma to_string_array_cons x y rest :
  to_string (VArr (x :: y :: rest))
  = (let* s := element_string x in
     let* t := to_string (VArr (y :: rest)) in
     Ok (s ++ "," ++ t)).
Proof. reflexivity. Qed.

Lemma to_string_throws v : forall e, to_string v = Throw e -> e = cannot_convert.
Proof.
  induction v using value_nested_ind; intros e He;
    try (destruct b; discriminate He); try discriminate He.
  - induction H as [| x rest Hx Hrest IH]; [discriminate He |].
    assert (Hel : forall e', element_string x = Throw e' -> e' = cannot_convert).
    { intros e' H'. destruct x; try discriminate H'; apply Hx; exact H'. }
    destruct rest as [| y rest].
    + rewrite to_string_array_one in He. auto.
    + rewrite to_string_array_cons in He.
      apply bind_Throw in He as [He | [s [_ He]]]; [auto |].
      apply bind_Throw in He as [He | [t [_ He]]]; [auto | discriminate He].
  - cbn [to_string] in He. destruct (has_own "toString" props); congruence.
Qed.

Lemma to_number_throws v e : to_number v = Throw e -> e = cannot_convert.
Proof.
  destruct v; try discriminate; try (destruct b; discriminate);
    cbn [to_number]; intro H;
    apply bind_Throw in H as [H | [s [_ H]]];
    first [ exact (to_string_throws _ _ H) | discriminate H ].
Qed.

Lemma to_number_of_to_string v s :
  to_string v = Ok s -> exists n, to_number v = Ok n.
Proof.
  destruct v; cbn [to_number]; intro H; try (destruct b); eauto;
    rewrite H; cbn [bind]; eauto.
Qed.

Lemma cannot_convert_type_error : is_type_error cannot_convert.
Proof. split; [reflexivity | discriminate]. Qed.

Lemma get_throws v k e : get v k = Throw e -> is_type_error e.
Proof.
  destruct v; try discriminate; intro H; injection H as <-;
    (split; [reflexivity | discriminate]).
Qed.

Lemma escapeHtml_throws v e : escapeHtml v = Throw e -> is_type_error e.
Proof.
  unfold escapeHtml. intro H. apply bind_Throw in H as [H | [s [_ H]]];
    [| discriminate H].
  rewrite (to_string_throws _ _ H). apply cannot_convert_type_error.
Qed.

Ltac throw_cases H :=
  repeat (apply bind_Throw in H as [H | [? [_ H]]];
          [ first [ exact (get_throws _ _ _ H)
                  | exact (escapeHtml_throws _ _ H)
                  | rewrite (to_string_throws _ _ H); exact cannot_convert_type_error
                  | rewrite (to_number_throws _ _ H); exact cannot_convert_type_error
                  | idtac ]
          | ]);
  try discriminate H.

Lemma render_row_throws it e : render_row it = Throw e -> is_type_error e.
Proof. unfold render_row. intro H. throw_cases H. Qed.

Lemma add_line_throws s it e : add_line s it = Throw e -> is_type_error e.
Proof. unfold add_line. intro H. throw_cases H. Qed.

Lemma array_map_throws {B} (f : value -> result B) xs e :
  array_map f xs = Throw e -> exists x, In x xs /\ f x = Throw e.
Proof.
  induction xs as [| x xs IH]; cbn [array_map]; intro H; [discriminate H |].
  apply bind_Throw in H as [H | [y [_ H]]].
  - exists x. split; [left; reflexivity | exact H].
  - apply bind_Throw in H as [H | [ys [_ H]]]; [| discriminate H].
    destruct (IH H) as [x' [Hin Hx']]. exists x'. split; [right; exact Hin | exact Hx'].
Qed.

Lemma array_reduce_throws {A} (f : A -> value -> result A) xs : forall init e,
  array_reduce f init xs = Throw e -> exists acc x, In x xs /\ f acc x = Throw e.
Proof.
  induction xs as [| x xs IH]; cbn [array_reduce]; intros init e H; [discriminate H |].
  apply bind_Throw in H as [H | [acc [_ H]]].
  - exists init, x. split; [left; reflexivity | exact H].
  - destruct (IH _ _ H) as [acc' [x' [Hin Hx']]].
    exists acc', x'. split; [right; exact Hin | exact Hx'].
Qed.

Lemma array_method_throws v m e :
  array_method v m = Throw e -> m <> "" -> is_type_error e.
Proof.
  destruct v; try discriminate; intros H _; injection H as <-;
    (split; [reflexivity | discriminate]).
Qed.

(** X5. Whatever [buildHtml] raises is a [TypeError] with a message: a value
    that is not an array where the items are expected, a property read on
    [null] or [undefined], or an object that cannot be converted to a
    string. *)
Theorem buildHtml_raises_type_errors orderMeta items e :
  buildHtml orderMeta items = Throw e ->
  err_name e = "TypeError" /\ err_message e <> "".
Proof.
  unfold buildHtml, compute_total. intro H.
  apply bind_Throw in H as [H | [xs [_ H]]];
    [exact (array_method_throws _ _ _ H ltac:(discriminate)) |].
  apply bind_Throw in H as [H | [rendered [_ H]]].
  { apply array_map_throws in H as [x [_ H]]. exact (render_row_throws _ _ H). }
  apply bind_Throw in H as [H | [total [_ H]]].
  { apply bind_Throw in H as [H | [ys [_ H]]];
      [exact (array_method_throws _ _ _ H ltac:(discriminate)) |].
    apply array_reduce_throws in H as [acc [x [_ H]]].
    exact (add_line_throws _ _ _ H). }
  throw_cases H.
Qed.

(** ** The total adds no failure of its own *)

Lemma add_line_after_row it r s :
  render_row it = Ok r -> exists s', add_line s it = Ok s'.
Proof.
  unfold render_row, add_line. intro H. invert_binds.
  repeat match goal with
         | E : get _ _ = Ok _ |- _ => rewrite E; clear E
         end.
  cbn [bind].
  match goal with
  | Ep : to_string (or_else ?p (VStr "")) = Ok _,
    Eq : to_string (or_else ?q (VNum (Int 1))) = Ok _ |- _ =>
      assert (Hp : exists n, to_number (or_else p (VNum (Int 0))) = Ok n)
        by (unfold or_else in *; destruct (truthy p);
            [exact (to_number_of_to_string _ _ Ep) | eexists; reflexivity]);
      destruct Hp as [pn Hp];
      destruct (to_number_of_to_string _ _ Eq) as [qn Hq];
      rewrite Hp; cbn [bind]; rewrite Hq; cbn [bind]; eauto
  end.
Qed.

(** X6. When every row renders, the total computes: the sum raises nothing
    that the rows have not raised already. *)
Theorem total_computes_when_rows_render items xs rendered :
  or_else items (VArr []) = VArr xs ->
  array_map render_row xs = Ok rendered ->
  exists total, compute_total items = Ok total.
Proof.
  intros Hxs Hrows. rewrite (compute_total_array _ _ Hxs). clear Hxs.
  generalize (Int 0). revert rendered Hrows.
  induction xs as [| x xs IH]; intros rendered Hrows s; cbn [array_reduce].
  - eauto.
  - cbn [array_map] in Hrows. invert_binds.
    match goal with
    | E : render_row x = Ok _ |- _ =>
        destruct (add_line_after_row _ _ s E) as [s' ->]
    end.
    cbn [bind]. eapply IH. eassumption.
Qed.

(** ** The shape of [items] *)


(** ** [NaN] in the total *)

Lemma fold_from_NaN amounts : fold_left nadd amounts NaN = NaN.
Proof.
  induction amounts as [| a amounts IH]; [reflexivity |].
  cbn [fold_left]. rewrite nadd_NaN_l. exact IH.
Qed.

Lemma fold_with_NaN amounts : forall s,
  In NaN amounts -> fold_left nadd amounts s = NaN.
Proof.
  induction amounts as [| a amounts IH]; intros s H; [contradiction |].
  cbn [fold_left]. destruct H as [-> | H].
  - rewrite nadd_NaN_r. apply fold_from_NaN.
  - apply IH. exact H.
Qed.

(** X8. One line poisons the total: when the amount of some entry,
    [Number(price || 0) * Number(qty || 1)], is [NaN], the computed total is
    [NaN], whatever the other entries hold. *)
Theorem a_NaN_line_makes_the_total_NaN items xs total it :
  or_else items (VArr []) = VArr xs ->
  compute_total items = Ok total ->
  In it xs ->
  line_amount it = Ok NaN ->
  compute_total items = Ok NaN.
Proof.
  intros Hxs Ht Hin Hit. rewrite Ht. f_equal.
  rewrite (compute_total_array _ _ Hxs) in Ht.
  destruct (reduce_is_fold _ _ _ Ht) as [amounts [Hm ->]].
  apply fold_with_NaN.
  destruct (array_map_In _ _ _ _ Hm Hin) as [a [Ha Hin']]. congruence.
Qed.

(** ** Every run of the handler *)

Ltac run_all :=
  unfold handler, send_order, read_body; rewrite ?getRawBody_run;
  match goal with
  | |- context [failure (stream ?req)] => destruct (failure (stream req)) eqn:?
  | _ => idtac
  end;
  repeat run_step;
  cbn [mbind try_catch lift emit ret respond fst snd trace app
       responses network_events filter is_network].

Ltac find_event := cbn [In]; repeat first [ left; reflexivity | right ].

(** X9. Every invocation answers exactly once, with status 200, 405 or 500,
    and the response is the last thing it does; no exception escapes the
    handler. *)
Theorem handler_answers_exactly_once env w req :
  snd (handler env w req) = Ok tt /\
  exists before status json,
    trace (handler env w req) = (before ++ [Respond status json])%list /\
    responses before = [] /\
    (status = 200 \/ status = 405 \/ status = 500).
Proof.
  run_all; (split; [reflexivity |]);
    match goal with
    | |- exists before status json, ?l = _ /\ _ =>
        exists (removelast l); do 2 eexists;
        split; [reflexivity | split; [reflexivity | tauto]]
    end.
Qed.

(** X10. An invocation creates at most one transport, verifies it at most
    once and sends at most one message, in that order: nothing is sent
    through a transport that was not verified first, and nothing is retried. *)
Theorem at_most_one_message env w req :
  let t := network_events (trace (handler env w req)) in
  let o := transport_options env in
  t = [] \/
  t = [CreateTransport o; Verify o] \/
  exists mail, t = [CreateTransport o; Verify o; SendMail o mail].
Proof.
  cbv zeta. run_all;
    first [ left; reflexivity
          | right; left; reflexivity
          | right; right; eexists; reflexivity ].
Qed.

(** X11. A 200 response is given only right after a message was handed to
    the relay and accepted: the send is the action before the response, and
    the body carries the acknowledgement flag, the message id and the
    accepted recipients of that send's report. *)
Theorem success_means_sent env w req json :
  In (Respond 200 json) (trace (handler env w req)) ->
  exists before mail info,
    trace (handler env w req)
    = (before ++ [SendMail (transport_options env) mail; Respond 200 json])%list /\
    smtp_send w (transport_options env) mail = Ok info /\
    json = VObj [("ok", VBool true);
                 ("messageId", VStr (messageId info));
                 ("accepted", VArr (map VStr (accepted info)))].
Proof.
  run_all; intro H; pick_event H;
    match goal with
    | |- exists before mail info, ?l = _ /\ _ =>
        exists (removelast (removelast l)); do 2 eexists;
        split; [reflexivity | split; [eassumption | reflexivity]]
    end.
Qed.

(** ** What is sent *)

(** X12. The message handed to the relay is the rendering of the request's
    order: its HTML is [buildHtml] of the body's [orderMeta] and [items]
    (each replaced by an empty value when falsy), its subject carries the
    order number as it is, not escaped, its sender is the SMTP account under
    the display name Medical Shop, and it goes to the destination. *)
Theorem message_is_the_rendered_order env w req opts mail :
  In (SendMail opts mail) (trace (handler env w req)) ->
  exists body orderMeta items number shown sender,
    snd (read_body w req) = Ok body /\
    get body "orderMeta" = Ok orderMeta /\
    get body "items" = Ok items /\
    buildHtml (or_else orderMeta (VObj [])) (or_else items (VArr []))
    = Ok (mail_html mail) /\
    optional_get orderMeta "order_number" = Ok number /\
    to_string (or_else number (VStr "")) = Ok shown /\
    mail_subject mail = "Nouvelle commande " ++ shown /\
    to_string (user env) = Ok sender /\
    mail_from mail = dquote ++ "Medical Shop" ++ dquote ++ " <" ++ sender ++ ">" /\
    mail_to mail = destination env.
Proof.
  run_all; intro H; cbn [In] in H;
    repeat (destruct H as [H | H]; [try discriminate H |]); try contradiction;
    injection H as _ <-;
    (do 6 eexists; cbn [mail_html mail_subject mail_from mail_to];
     split_all; first [eassumption | reflexivity]).
Qed.

(** ** Where the body comes from *)



(** X14. When the raw stream is read and fails, the handler answers 500 with
    the stream's error; whatever chunks arrived are dropped, nothing is
    parsed and nothing reaches the network. *)
Theorem stream_error_is_answered env w req err :
  method req = "POST" ->
  truthy (user env) = true ->
  truthy (pass env) = true ->
  truthy (and_then (body req) (VNum (Int (Z.of_nat (keys_length (body req)))))) = false ->
  failure (stream req) = Some err ->
  handler env w req
  = ([ReadStream;
      ConsoleError "api/send-email error" (Some err);
      Respond 500 (error_body err)], Ok tt).
Proof.
  intros Hm Hu Hp Hb Hf.
  unfold handler, send_order, read_body.
  rewrite Hm, Hu, Hp, Hb, getRawBody_run, Hf.
  reflexivity.
Qed.

(** X15. A body that is [null] (the JSON text [null]) is answered 500 with a
    [TypeError]: the destructuring fails before any transport is created. *)
Theorem null_body_is_answered env w req :
  method req = "POST" ->
  truthy (user env) = true ->
  truthy (pass env) = true ->
  snd (read_body w req) = Ok VNull ->
  exists err,
    err_name err = "TypeError" /\
    trace (handler env w req)
    = (fst (read_body w req)
       ++ [ConsoleError "api/send-email error" (Some err);
           Respond 500 (error_body err)])%list /\
    network_events (trace (handler env w req)) = [].
Proof.
  intros Hm Hu Hp Hb.
  unfold handler, send_order. rewrite Hm, Hu, Hp.
  destruct (read_body_events w req) as [E | E];
    destruct (read_body w req) as [t0 rb]; cbn [fst snd] in *; subst t0 rb;
    exists (TypeError "Cannot read properties of null (reading 'orderMeta')");
    split_all; reflexivity.
Qed.

(** ** No validation of the order *)

Lemma blank_render :
  buildHtml (VObj []) (VArr []) = Ok (document "" "" "" "" "" "0" "").
Proof.
  unfold buildHtml, compute_total.
  change (or_else (VArr []) (VArr [])) with (VArr (@nil value)).
  cbn [array_method array_map array_reduce bind get lookup or_else truthy to_string].
  rewrite number_to_string_Int by prove_safe. reflexivity.
Qed.

Ltac find_in_trace :=
  lazymatch goal with
  | |- In _ (_ ++ _)%list =>
      apply in_or_app; first [ left; find_in_trace | right; find_in_trace ]
  | |- In _ (_ :: _) =>
      first [ left; reflexivity | right; find_in_trace ]
  end.

(** X16. The handler does not validate the order: a body that has neither
    [orderMeta] nor [items] (any number, boolean, string or array, or an
    object without these keys) is not rejected; a notification with blank
    fields, no rows and the total 0 is handed to the relay. *)
Theorem order_without_fields_is_sent env w req body u :
  method req = "POST" ->
  SMTP_USER env = Some u ->
  u <> "" ->
  truthy (pass env) = true ->
  snd (read_body w req) = Ok body ->
  get body "orderMeta" = Ok VUndefined ->
  get body "items" = Ok VUndefined ->
  In (SendMail (transport_options env)
               (mkMail (dquote ++ "Medical Shop" ++ dquote ++ " <" ++ u ++ ">")
                       (destination env)
                       "Nouvelle commande "
                       (document "" "" "" "" "" "0" "")))
     (trace (handler env w req)).
Proof.
  intros Hm Hu Hne Hp Hb Hom Hit.
  assert (Tu : truthy (user env) = true).
  { unfold user. rewrite Hu. cbn [env_value truthy].
    destruct (String.eqb_spec u ""); [contradiction | reflexivity]. }
  assert (Su : to_string (user env) = Ok u) by (unfold user; rewrite Hu; reflexivity).
  unfold handler, send_order. rewrite Hm, Tu, Hp.
  change (negb ("POST" =? "POST")%string) with false. cbn [negb orb].
  destruct (read_body w req) as [t0 rb]. cbn [snd] in Hb. subst rb.
  cbn [mbind lift]. rewrite Hom, Hit.
  change (or_else VUndefined (VObj [])) with (VObj []).
  change (or_else VUndefined (VArr [])) with (VArr []).
  rewrite blank_render, Su.
  cbn [optional_get or_else truthy to_string].
  destruct (smtp_verify w (transport_options env));
    destruct (smtp_send w (transport_options env) _);
    cbn [mbind try_catch lift emit ret respond fst snd trace app];
    find_in_trace.
Qed.

(** ** Empty environment variables *)

Lemma blank_as_unset_truthy o :
  truthy (env_value (blank_as_unset o)) = truthy (env_value o).
Proof. destruct o as [[| c s] |]; reflexivity. Qed.

Lemma blank_as_unset_or o v :
  or_else (env_value (blank_as_unset o)) v = or_else (env_value o) v.
Proof. destruct o as [[| c s] |]; reflexivity. Qed.

Lemma blank_as_unset_kept o :
  truthy (env_value o) = true -> blank_as_unset o = o.
Proof. destruct o as [[| c s] |]; try discriminate; reflexivity. Qed.

(** X17. An environment variable set to the empty text behaves as an unset
    one: the host and the port fall back to their defaults, the destination
    falls back to the SMTP account, empty credentials count as missing, and
    every run of the handler is the same. *)
Theorem empty_variables_are_unset env w req :
  host (without_blanks env) = host env /\
  port (without_blanks env) = port env /\
  (truthy (user env) = true ->
   destination (without_blanks env) = destination env) /\
  truthy (user (without_blanks env)) = truthy (user env) /\
  truthy (pass (without_blanks env)) = truthy (pass env) /\
  handler (without_blanks env) w req = handler env w req.
Proof.
  assert (Hh : host (without_blanks env) = host env)
    by (unfold host; cbn [without_blanks SMTP_HOST]; apply blank_as_unset_or).
  assert (Hport : port (without_blanks env) = port env)
    by (unfold port; cbn [without_blanks SMTP_PORT];
        destruct (SMTP_PORT env) as [[| c s] |]; reflexivity).
  assert (Tu : truthy (user (without_blanks env)) = truthy (user env))
    by (unfold user; cbn [without_blanks SMTP_USER]; apply blank_as_unset_truthy).
  assert (Tp : truthy (pass (without_blanks env)) = truthy (pass env))
    by (unfold pass; cbn [without_blanks SMTP_PASS]; apply blank_as_unset_truthy).
  assert (Hd : truthy (user env) = true ->
               destination (without_blanks env) = destination env).
  { unfold destination, user. cbn [without_blanks EMAIL_TO SMTP_USER]. intro U.
    rewrite blank_as_unset_or, (blank_as_unset_kept _ U). reflexivity. }
  split_all; try assumption.
  unfold handler. rewrite Tu, Tp.
  destruct (negb (method req =? "POST")%string); [reflexivity |].
  destruct (truthy (user env)) eqn:U; [| reflexivity].
  destruct (truthy (pass env)) eqn:P; [| reflexivity].
  cbn [negb orb].
  assert (Eu : user (without_blanks env) = user env)
    by (unfold user in *; cbn [without_blanks SMTP_USER];
        rewrite (blank_as_unset_kept _ U); reflexivity).
  assert (Ep : pass (without_blanks env) = pass env)
    by (unfold pass in *; cbn [without_blanks SMTP_PASS];
        rewrite (blank_as_unset_kept _ P); reflexivity).
  assert (Et : transport_options (without_blanks env) = transport_options env)
    by (unfold transport_options; rewrite Hh, Hport, Eu, Ep; reflexivity).
  unfold send_order. rewrite Et, Eu, (Hd eq_refl). reflexivity.
Qed.

End Properties.

(** * The theorems on sample inputs *)

#[local] Existing Instance exact_numbers.

Lemma buildHtml_escapes_every_field_witness :
  exists xs,
    or_else order_with_script (VArr []) = VArr xs /\
    keep markup order_with_script_html = keep markup (blank_document (List.length xs)) /\
    ampersands_escaped order_with_script_html = true /\
    occurs "<script>" order_with_script_html = false /\
    (forall props,
        In (VObj props) xs ->
        lookup "title" props = Some (VStr "<script>") ->
        occurs "&lt;script&gt;" order_with_script_html = true).
Proof.
  apply (buildHtml_escapes_every_field
           (VObj [("order_number", VStr "A&B")]) order_with_script).
  vm_compute. reflexivity.
Defined.

Lemma total_row_shows_the_sum_witness :
  exists xs total amounts,
    or_else items_AB (VArr []) = VArr xs /\
    compute_total items_AB = Ok total /\
    array_map line_amount xs = Ok amounts /\
    total = fold_left nadd amounts (Int 0) /\
    occurs (total_row (number_to_string total)) items_AB_html = true /\
    (forall lines,
        xs = map encode lines -> exact_from 0 lines ->
        total = Int (sum_Z (map line_value lines))) /\
    (items_AB = items_AB -> total = Int 2000).
Proof.
  apply (total_row_shows_the_sum (VObj []) items_AB).
  vm_compute. reflexivity.
Defined.

(** C1, counterexample.  With the price ["abc"] on the first line, the claim
    counts that line as 0 and expects the total 1000; the handler computes
    [NaN] and the total row shows it. *)
Lemma total_with_invalid_price :
  specified_total entries_bad_price = 1000%Z /\
  compute_total (VArr entries_bad_price) = Ok NaN /\
  exists html,
    buildHtml (VObj []) (VArr entries_bad_price) = Ok html /\
    occurs (total_row "NaN") html = true /\
    occurs (total_row (number_to_string (Int (specified_total entries_bad_price)))) html
    = false.
Proof.
  split; [reflexivity |]. split; [reflexivity |].
  eexists. split; [vm_compute; reflexivity |].
  split; vm_compute; reflexivity.
Qed.

Lemma row_shows_defaults_witness :
  exists q p qty price,
    get item_title_only "qty" = Ok q /\ get item_title_only "price" = Ok p /\
    (exists title,
        row_template "A" "1" " XOF" = row_template title qty (price ++ " XOF")) /\
    (truthy q = false -> qty = "1") /\
    (truthy q = true -> exists s, to_string q = Ok s /\ qty = replace_special s) /\
    (truthy p = false -> price = "") /\
    (truthy p = true -> exists s, to_string p = Ok s /\ price = replace_special s).
Proof.
  apply (row_shows_defaults item_title_only). reflexivity.
Defined.

(** C7, counterexample.  For an item with a title only, the data model's
    defaults give the price cell [0 XOF]; the rendered cell is [ XOF]. *)
Lemma row_without_price :
  specified_row item_title_only = Ok (row_template "A" "1" "0 XOF") /\
  render_row item_title_only = Ok (row_template "A" "1" " XOF") /\
  render_row item_title_only <> specified_row item_title_only.
Proof.
  split; [reflexivity |]. split; [reflexivity |].
  vm_compute. discriminate.
Qed.

Lemma primitive_entries_render_as_blank_rows_witness :
  array_map render_row [VStr "x"; VNum (Int 3); VBool true]
  = Ok (repeat (row_template "" "1" " XOF") 3) /\
  compute_total (VArr [VStr "x"; VNum (Int 3); VBool true]) = Ok (Int 0) /\
  exists a b c d i,
    document "" "" "" "" "" "0" "" = document a b c d "" "0" i /\
    buildHtml (VObj []) (VArr [VStr "x"; VNum (Int 3); VBool true])
    = Ok (document a b c d
            (join_empty (repeat (row_template "" "1" " XOF") 3)) "0" i).
Proof.
  apply (primitive_entries_render_as_blank_rows
           (VObj []) [VStr "x"; VNum (Int 3); VBool true]);
    reflexivity.
Defined.

(** C9, counterexample.  [null] is not an object either, and reading a
    property of it throws: an items array holding [null] does not render. *)
Lemma null_entry_throws :
  primitive VNull = false /\
  buildHtml (VObj []) (VArr [VNull])
  = Throw (TypeError "Cannot read properties of null (reading 'title')").
Proof. split; reflexivity. Qed.

Lemma non_post_is_rejected_witness :
  handler env_sample world_sample (mkRequest "GET" VUndefined (mkStream [] None))
  = ([SetHeader "Allow" "POST";
      Respond 405 (VObj [("error", VStr "Method not allowed")])], Ok tt) /\
  existsb is_network
          (trace (handler env_sample world_sample
                          (mkRequest "GET" VUndefined (mkStream [] None))))
  = false.
Proof.
  apply (non_post_is_rejected env_sample world_sample
           (mkRequest "GET" VUndefined (mkStream [] None))).
  simpl. discriminate.
Defined.

Lemma missing_credentials_are_fatal_witness :
  handler (mkEnv None None (Some "shop@example.com") None None)
          world_sample request_sample
  = ([ConsoleError "SMTP credentials not configured (SMTP_USER/SMTP_PASS)" None;
      Respond 500 (VObj [("error", VStr "SMTP credentials not configured")])],
     Ok tt) /\
  existsb is_network
          (trace (handler (mkEnv None None (Some "shop@example.com") None None)
                          world_sample request_sample))
  = false.
Proof.
  apply (missing_credentials_are_fatal
           (mkEnv None None (Some "shop@example.com") None None)
           world_sample request_sample).
  - reflexivity.
  - right. reflexivity.
Defined.

Lemma verification_failure_is_only_logged_witness :
  exists mail,
    mail_html mail = request_sample_html /\
    mail_to mail = destination env_sample /\
    trace (handler env_sample world_sample request_sample)
    = (fst (read_body world_sample request_sample)
       ++ [CreateTransport (transport_options env_sample);
           Verify (transport_options env_sample);
           ConsoleWarn "SMTP verify warning:"
                       (err_message (mkError "Error" "connect ECONNREFUSED"));
           SendMail (transport_options env_sample) mail]
       ++ match smtp_send world_sample (transport_options env_sample) mail with
          | Ok info =>
              [Respond 200 (VObj [("ok", VBool true);
                                  ("messageId", VStr (messageId info));
                                  ("accepted", VArr (map VStr (accepted info)))])]
          | Throw err =>
              [ConsoleError "api/send-email error" (Some err);
               Respond 500 (error_body err)]
          end)%list /\
    without_warnings (trace (handler env_sample world_sample request_sample))
    = trace (handler env_sample (with_verify_ok world_sample) request_sample).
Proof.
  pose proof (verification_failure_is_only_logged
                env_sample world_sample request_sample
                (mkError "Error" "connect ECONNREFUSED")
                (body request_sample)
                (VObj [("order_number", VStr "CMD-1")]) items_AB
                request_sample_html) as H.
  assert (Hhtml : buildHtml (or_else (VObj [("order_number", VStr "CMD-1")])
                                     (VObj []))
                            (or_else items_AB (VArr []))
                  = Ok request_sample_html)
    by (vm_compute; reflexivity).
  exact (H eq_refl eq_refl eq_refl eq_refl eq_refl eq_refl Hhtml eq_refl).
Defined.



Lemma buildHtml_raises_type_errors_witness :
  err_name (TypeError "Cannot read properties of null (reading 'title')") = "TypeError"
  /\ err_message (TypeError "Cannot read properties of null (reading 'title')") <> "".
Proof.
  apply (buildHtml_raises_type_errors (VObj []) (VArr [VNull])). reflexivity.
Defined.

Lemma total_computes_when_rows_render_witness :
  exists total, compute_total (VArr entries_AB) = Ok total.
Proof.
  apply (total_computes_when_rows_render (VArr entries_AB) entries_AB rows_AB);
    reflexivity.
Defined.


Lemma a_NaN_line_makes_the_total_NaN_witness :
  compute_total (VArr entries_bad_price) = Ok NaN.
Proof.
  apply (a_NaN_line_makes_the_total_NaN
           (VArr entries_bad_price) entries_bad_price NaN
           (VObj [("title", VStr "A"); ("qty", VNum (Int 2)); ("price", VStr "abc")]));
    first [reflexivity | left; reflexivity].
Defined.

Lemma success_means_sent_witness :
  exists before mail info,
    trace (handler env_sample world_sample request_sample)
    = (before
       ++ [SendMail (transport_options env_sample) mail;
           Respond 200 (VObj [("ok", VBool true);
                              ("messageId", VStr "<1@example.com>");
                              ("accepted", VArr [VStr "shop@example.com"])])])%list /\
    smtp_send world_sample (transport_options env_sample) mail = Ok info /\
    VObj [("ok", VBool true);
          ("messageId", VStr "<1@example.com>");
          ("accepted", VArr [VStr "shop@example.com"])]
    = VObj [("ok", VBool true);
            ("messageId", VStr (messageId info));
            ("accepted", VArr (map VStr (accepted info)))].
Proof.
  apply (success_means_sent env_sample world_sample request_sample).
  repeat first [left; reflexivity | right].
Defined.

Lemma message_is_the_rendered_order_witness :
  exists body orderMeta items number shown sender,
    snd (read_body world_sample request_sample) = Ok body /\
    get body "orderMeta" = Ok orderMeta /\
    get body "items" = Ok items /\
    buildHtml (or_else orderMeta (VObj [])) (or_else items (VArr []))
    = Ok (mail_html (mkMail (dquote ++ "Medical Shop" ++ dquote ++ " <shop@example.com>")
                            (VStr "shop@example.com") "Nouvelle commande CMD-1"
                            request_sample_html)) /\
    optional_get orderMeta "order_number" = Ok number /\
    to_string (or_else number (VStr "")) = Ok shown /\
    mail_subject (mkMail (dquote ++ "Medical Shop" ++ dquote ++ " <shop@example.com>")
                         (VStr "shop@example.com") "Nouvelle commande CMD-1"
                         request_sample_html)
    = "Nouvelle commande " ++ shown /\
    to_string (user env_sample) = Ok sender /\
    mail_from (mkMail (dquote ++ "Medical Shop" ++ dquote ++ " <shop@example.com>")
                      (VStr "shop@example.com") "Nouvelle commande CMD-1"
                      request_sample_html)
    = dquote ++ "Medical Shop" ++ dquote ++ " <" ++ sender ++ ">" /\
    mail_to (mkMail (dquote ++ "Medical Shop" ++ dquote ++ " <shop@example.com>")
                    (VStr "shop@example.com") "Nouvelle commande CMD-1"
                    request_sample_html)
    = destination env_sample.
Proof.
  apply (message_is_the_rendered_order env_sample world_sample request_sample
           (transport_options env_sample)).
  repeat first [left; reflexivity | right].
Defined.


Lemma stream_error_is_answered_witness :
  handler env_sample world_sample
          (mkRequest "POST" VUndefined
                     (mkStream ["{"] (Some (mkError "Error" "aborted"))))
  = ([ReadStream;
      ConsoleError "api/send-email error" (Some (mkError "Error" "aborted"));
      Respond 500 (error_body (mkError "Error" "aborted"))], Ok tt).
Proof.
  apply (stream_error_is_answered env_sample world_sample
           (mkRequest "POST" VUndefined
                      (mkStream ["{"] (Some (mkError "Error" "aborted")))));
    reflexivity.
Defined.

Lemma null_body_is_answered_witness :
  exists err,
    err_name err = "TypeError" /\
    trace (handler env_sample world_null request_empty_object)
    = (fst (read_body world_null request_empty_object)
       ++ [ConsoleError "api/send-email error" (Some err);
           Respond 500 (error_body err)])%list /\
    network_events (trace (handler env_sample world_null request_empty_object)) = [].
Proof.
  apply (null_body_is_answered env_sample world_null request_empty_object);
    reflexivity.
Defined.

Lemma order_without_fields_is_sent_witness :
  In (SendMail (transport_options env_sample)
               (mkMail (dquote ++ "Medical Shop" ++ dquote ++ " <" ++ "shop@example.com" ++ ">")
                       (destination env_sample)
                       "Nouvelle commande "
                       (document "" "" "" "" "" "0" "")))
     (trace (handler env_sample world_sample
                     (mkRequest "POST" (VArr [VNum (Int 1)]) (mkStream [] None)))).
Proof.
  apply (order_without_fields_is_sent env_sample world_sample
           (mkRequest "POST" (VArr [VNum (Int 1)]) (mkStream [] None))
           (VArr [VNum (Int 1)]) "shop@example.com");
    first [reflexivity | discriminate].
Defined.

(** ** The model on small inputs *)

Example to_string_nested_array :
  to_string (VArr [VNum (Int 1); VNull; VStr "a"; VArr [VBool true; VNum (Int (-3))]])
  = Ok "1,,a,true,-3".
Proof. reflexivity. Qed.

Example to_string_plain_object : to_string (VObj [("a", VNull)]) = Ok "[object Object]".
Proof. reflexivity. Qed.

Example to_string_shadowed_method :
  to_string (VObj [("toString", VNum (Int 1))]) = Throw cannot_convert.
Proof. reflexivity. Qed.

Example string_to_number_samples :
  string_to_number "  -42 " = Int (-42) /\ string_to_number "abc" = NaN /\
  string_to_number "" = Int 0 /\ string_to_number "-" = NaN /\
  string_to_number "465" = Int 465.
Proof. repeat split; reflexivity. Qed.

Example escapeHtml_five_characters :
  escapeHtml (VStr ("&<>" ++ dquote ++ "'")) = Ok "&amp;&lt;&gt;&quot;&#39;".
Proof. reflexivity. Qed.

Example port_465_is_secure :
  opt_secure (transport_options env_sample) = true /\
  opt_secure (transport_options (mkEnv None None (Some "u") (Some "p") None)) = false.
Proof. split; reflexivity. Qed.

Example total_of_items_AB : compute_total items_AB = Ok (Int 2000).
Proof. reflexivity. Qed.
